(** * The DataRobot vector-database dynamic provider

    A shallow embedding of [DataRobotVectorDatabaseProvider]
    (src/infra/components/vector_database_patch.py): the field comparator
    [_chunking_params_diff], the decision verb [diff], the state codec
    [_vdb_to_dict] and the lifecycle verbs [create] and [read], followed by
    the properties the specification states about them.

    Python dictionaries are finite maps ([gmap string _]); exceptions are an
    explicit [outcome]; the remote platform and the wall clock are a scripted
    [Remote] and a [World] that is passed along. *)

From Stdlib Require Import ZArith String Ascii OrderedTypeEx Permutation.
From stdpp Require Import base option list gmap strings pretty.

Local Open Scope string_scope.

Set Warnings "-clear-no-such-hyp".

(** ** Python values

    The values a property bag of this provider holds: [None], booleans,
    integers, strings, lists of strings (the separators) and, one level down,
    dictionaries of those (the nested [chunking_parameters] group and
    [options]). *)

Inductive atom : Type :=
  | ANone
  | ABool (b : bool)
  | AInt (z : Z)
  | AStr (s : string)
  | AList (l : list string).

Inductive pyval : Type :=
  | VAtom (a : atom)
  | VDict (d : gmap string atom).

#[global] Instance atom_eq_dec : EqDecision atom.
Proof. solve_decision. Defined.

#[global] Instance pyval_eq_dec : EqDecision pyval.
Proof. solve_decision. Defined.

Abbreviation PNone := (VAtom ANone).
Abbreviation PFalse := (VAtom (ABool false)).
Abbreviation PTrue := (VAtom (ABool true)).

(** Python's [==] on atoms.  [bool] is a subclass of [int]: [True == 1] and
    [False == 0]; values of otherwise different types are unequal. *)
Definition atom_eq (a b : atom) : bool :=
  match a, b with
  | ANone, ANone => true
  | ABool x, ABool y => bool_decide (x = y)
  | ABool x, AInt z | AInt z, ABool x => bool_decide (Z.b2z x = z)
  | AInt x, AInt y => bool_decide (x = y)
  | AStr s, AStr t => bool_decide (s = t)
  | AList l, AList r => bool_decide (l = r)
  | _, _ => false
  end.

(** The representative of an atom up to [==]: booleans read as integers. *)
Definition atom_norm (a : atom) : atom :=
  match a with
  | ABool b => AInt (Z.b2z b)
  | _ => a
  end.

(** Python's [==] on values: two dictionaries are equal when they have the
    same keys with equal values, whatever the insertion order. *)
Definition py_eq (v w : pyval) : bool :=
  match v, w with
  | VAtom a, VAtom b => atom_eq a b
  | VDict d, VDict e => bool_decide (atom_norm <$> d = atom_norm <$> e)
  | _, _ => false
  end.

(** Truthiness ([if x:], [not x]). *)
Definition atom_truthy (a : atom) : bool :=
  match a with
  | ANone => false
  | ABool b => b
  | AInt z => negb (bool_decide (z = 0%Z))
  | AStr s => negb (bool_decide (s = ""))
  | AList l => negb (bool_decide (l = []))
  end.

Definition py_truthy (v : pyval) : bool :=
  match v with
  | VAtom a => atom_truthy a
  | VDict d => negb (bool_decide (d = ∅))
  end.

(** [x is None] and [x is False] (identity with the singletons). *)
Definition is_None (v : pyval) : bool := bool_decide (v = PNone).
Definition is_False (v : pyval) : bool := bool_decide (v = PFalse).

(** [d.get(key)]: the value, or [None] when the key is absent. *)
Definition get (d : gmap string pyval) (key : string) : pyval :=
  default PNone (d !! key).

Definition aget (d : gmap string atom) (key : string) : atom :=
  default ANone (d !! key).

(** [key in d]. *)
Definition has {V : Type} (d : gmap string V) (key : string) : bool :=
  bool_decide (is_Some (d !! key)).

(** ** Exceptions *)

Inductive exn : Type :=
  | TypeError
  | AttributeError
  | TimeoutError (msg : string)
  | PyException (msg : string)
  | RemoteError (msg : string).

Inductive outcome (A : Type) : Type :=
  | Ok (a : A)
  | Raise (e : exn).

Arguments Ok {A} a.
Arguments Raise {A} e.

#[global] Instance exn_eq_dec : EqDecision exn.
Proof. solve_decision. Defined.

#[global] Instance outcome_ret : MRet outcome := λ A a, Ok a.

#[global] Instance outcome_bind : MBind outcome := λ A B f m,
  match m with
  | Ok a => f a
  | Raise e => Raise e
  end.

(** ** [sorted]

    Iterating a value: a list yields its elements, a string its characters,
    a dictionary its keys; anything else is not iterable. *)

Definition chars (s : string) : list string :=
  (λ c, String c "") <$> list_ascii_of_string s.

Definition py_iter (v : pyval) : outcome (list string) :=
  match v with
  | VAtom (AList l) => Ok l
  | VAtom (AStr s) => Ok (chars s)
  | VDict d => Ok (map_to_list d).*1
  | VAtom _ => Raise TypeError
  end.

(** Strings are ordered lexicographically, character by character
    ([String.leb]).  [sorted] is a stable sort; on strings, where elements
    that compare equal are identical, every ascending arrangement of the
    input is the same list, so a stable insertion sort gives its result. *)
Fixpoint insert_sorted (x : string) (l : list string) : list string :=
  match l with
  | [] => [x]
  | y :: l' => if String.leb x y then x :: y :: l' else y :: insert_sorted x l'
  end.

Definition sort_strings (l : list string) : list string :=
  foldr insert_sorted [] l.

Definition sorted (v : pyval) : outcome (list string) :=
  l ← py_iter v; Ok (sort_strings l).

(** ** The field comparator: [_chunking_params_diff] *)

Definition keys_to_compare : list string :=
  [ "embedding_model"; "chunking_method"; "chunk_size";
    "chunk_overlap_percentage"; "separators"; "custom_chunking";
    "embedding_validation_id" ].

(** One round of the loop over [keys_to_compare]: is [key] appended to
    [changed_fields]? *)
Definition key_changed (key : string) (old_value new_value : pyval)
  : outcome bool :=
  if is_None old_value && is_None new_value then Ok false
  else if bool_decide (key = "custom_chunking")
          && ((is_None old_value || is_False old_value) && is_False new_value)
  then Ok false
  else if bool_decide (key = "separators")
          && negb (is_None old_value) && negb (is_None new_value)
  then
    so ← sorted old_value;
    sn ← sorted new_value;
    Ok (negb (bool_decide (so = sn)))
  else Ok (negb (py_eq old_value new_value)).

Fixpoint params_loop (keys : list string) (old_params new_params : gmap string pyval)
    (changed : bool) (changed_fields : list string)
  : outcome (bool * list string) :=
  match keys with
  | [] => Ok (changed, changed_fields)
  | key :: keys' =>
      c ← key_changed key (get old_params key) (get new_params key);
      if (c : bool)
      then params_loop keys' old_params new_params true (changed_fields ++ [key])
      else params_loop keys' old_params new_params changed changed_fields
  end.

Definition _chunking_params_diff (old_params new_params : gmap string pyval)
  : outcome (bool * list string) :=
  params_loop keys_to_compare old_params new_params false [].

(** ** The decision verb: [diff] *)

Record DiffResult : Type := mkDiffResult {
  changes : bool;
  replaces : gset string;
  delete_before_replace : bool
}.

#[global] Instance DiffResult_eq_dec : EqDecision DiffResult.
Proof. solve_decision. Defined.

(** A nested group handed to the comparator. *)
Definition lift (d : gmap string atom) : gmap string pyval := VAtom <$> d.

(** The guarded call of the comparator (the same text in both branches of
    [diff]): when the old side has no [custom_chunking] key and the new side
    has it as [False], the key is popped from a copy of the new side first.
    A new side that is no dictionary has no [get]. *)
Definition compare_chunking (old_cp : gmap string pyval) (new_cp : pyval)
  : outcome (bool * list string) :=
  match new_cp with
  | VDict n =>
      if negb (has old_cp "custom_chunking")
         && bool_decide (aget n "custom_chunking" = ABool false)
      then _chunking_params_diff old_cp (lift (delete "custom_chunking" n))
      else _chunking_params_diff old_cp (lift n)
  | VAtom _ => Raise AttributeError
  end.

(** [for field in changed_fields: replaces.add(f"chunking_parameters.{field}")] *)
Definition add_replaces (changed_fields : list string) (replaces : gset string)
  : gset string :=
  foldl (λ acc field, {["chunking_parameters." +:+ field]} ∪ acc)
        replaces changed_fields.

(** The flat chunking fields of a legacy state, collected into a dictionary. *)
Definition old_flat (old_props : gmap string pyval) : gmap string pyval :=
  foldl (λ acc field,
           match old_props !! field with
           | Some v => <[field := v]> acc
           | None => acc
           end)
        ∅ keys_to_compare.

(** What both branches of [diff] do with the comparator's answer:
    [if cp_changed: changes = True], and every changed field is added to
    [replaces] under its prefixed name. *)
Definition flag_fields (changes : bool) (answer : bool * list string)
  : bool * gset string :=
  let '(cp_changed, changed_fields) := answer in
  if (cp_changed : bool)
  then (true, add_replaces changed_fields ∅)
  else (changes, ∅).

(** The comparison part of [diff]: [changes] and [replaces] before the
    collapse.  An old nested group that is no dictionary fails at
    ["custom_chunking" not in old_cp] when it is not a container, and at
    the first [get] otherwise. *)
Definition diff_compare (old_props new_props : gmap string pyval)
  : outcome (bool * gset string) :=
  let name_changed := negb (py_eq (get old_props "name") (get new_props "name")) in
  if has new_props "chunking_parameters" && has old_props "chunking_parameters"
  then
    match get old_props "chunking_parameters" with
    | VDict old_cp =>
        answer ←
          compare_chunking (lift old_cp) (get new_props "chunking_parameters");
        Ok (flag_fields name_changed answer)
    | VAtom (AStr _) | VAtom (AList _) => Raise AttributeError
    | VAtom _ => Raise TypeError
    end
  else if has new_props "chunking_parameters" && has old_props "embedding_model"
  then
    answer ←
      compare_chunking (old_flat old_props) (get new_props "chunking_parameters");
    Ok (flag_fields name_changed answer)
  else Ok (name_changed, ∅).

(** The collapse: more than three flagged fields become the single marker. *)
Definition collapse (replaces : gset string) : gset string :=
  if bool_decide (3 < size replaces) then {["chunking_parameters"]} else replaces.

Definition diff (id : string) (old_props new_props : gmap string pyval)
  : outcome DiffResult :=
  '(changes, replaces) ← diff_compare old_props new_props;
  Ok {| changes := changes;
        replaces := collapse replaces;
        delete_before_replace := false |}.

(** ** The remote resource and the state codec: [_vdb_to_dict] *)

(** A resource handle as the platform returns it.  The attribute
    [embedding_validation_id] may be missing from the handle altogether
    ([hasattr]), which is [None] here; [error_message] is text or [None]. *)
Record VectorDatabase : Type := mkVectorDatabase {
  vdb_id : atom;
  vdb_name : atom;
  vdb_use_case_id : atom;
  vdb_dataset_id : atom;
  vdb_chunks_count : atom;
  vdb_execution_status : atom;
  vdb_embedding_model : atom;
  vdb_chunking_method : atom;
  vdb_chunk_size : atom;
  vdb_chunk_overlap_percentage : atom;
  vdb_separators : atom;
  vdb_custom_chunking : atom;
  vdb_embedding_validation_id : option atom;
  vdb_error_message : option string
}.

(** One round of the loop over the keys of the reference group. *)
Definition nested_step (vdb : VectorDatabase)
    (chunking_parameters : gmap string atom) (key : string)
  : gmap string atom :=
  if bool_decide (key = "custom_chunking")
     && negb (atom_truthy (vdb_custom_chunking vdb))
  then
    if atom_truthy (vdb_custom_chunking vdb)
    then <["custom_chunking" := ABool true]> chunking_parameters
    else chunking_parameters
  else if bool_decide (key = "embedding_model")
  then <[key := vdb_embedding_model vdb]> chunking_parameters
  else if bool_decide (key = "chunking_method")
  then <[key := vdb_chunking_method vdb]> chunking_parameters
  else if bool_decide (key = "chunk_size")
  then <[key := vdb_chunk_size vdb]> chunking_parameters
  else if bool_decide (key = "chunk_overlap_percentage")
  then <[key := vdb_chunk_overlap_percentage vdb]> chunking_parameters
  else if bool_decide (key = "separators")
  then <[key := vdb_separators vdb]> chunking_parameters
  else if bool_decide (key = "embedding_validation_id")
  then match vdb_embedding_validation_id vdb with
       | Some v => <[key := v]> chunking_parameters
       | None => chunking_parameters
       end
  else chunking_parameters.

(** The properties that are always tracked. *)
Definition core_dict (vdb : VectorDatabase) : gmap string pyval :=
  <["dataset_id" := VAtom (vdb_dataset_id vdb)]>
    (<["use_case_id" := VAtom (vdb_use_case_id vdb)]>
       (<["name" := VAtom (vdb_name vdb)]>
          (<["id" := VAtom (vdb_id vdb)]> ∅))).

(** The flat layout, written when [props] has no nested group. *)
Definition flat_dict (vdb : VectorDatabase) (result : gmap string pyval)
  : gmap string pyval :=
  let result := <["embedding_model" := VAtom (vdb_embedding_model vdb)]> result in
  let result := <["chunking_method" := VAtom (vdb_chunking_method vdb)]> result in
  let result := <["chunk_size" := VAtom (vdb_chunk_size vdb)]> result in
  let result :=
    <["chunk_overlap_percentage" := VAtom (vdb_chunk_overlap_percentage vdb)]> result in
  let result := <["separators" := VAtom (vdb_separators vdb)]> result in
  let result :=
    if atom_truthy (vdb_custom_chunking vdb)
    then <["custom_chunking" := PTrue]> result
    else result in
  match vdb_embedding_validation_id vdb with
  | Some v =>
      if bool_decide (v = ANone) then result
      else <["embedding_validation_id" := VAtom v]> result
  | None => result
  end.

Definition _vdb_to_dict (vdb : VectorDatabase) (props : gmap string pyval)
  : outcome (gmap string pyval) :=
  let result := core_dict vdb in
  result ←
    (if has props "chunking_parameters"
     then
       keys ← py_iter (get props "chunking_parameters");
       Ok (<["chunking_parameters" := VDict (foldl (nested_step vdb) ∅ keys)]> result)
     else Ok (flat_dict vdb result));
  let result :=
    if has props "chunks_count"
    then <["chunks_count" := VAtom (vdb_chunks_count vdb)]> result
    else result in
  let result :=
    if has props "execution_status"
    then <["execution_status" := VAtom (vdb_execution_status vdb)]> result
    else result in
  Ok result.

(** ** The remote platform and the clock *)

(** The argument object the SDK takes for the chunking group. *)
Record ChunkingParameters : Type := mkChunkingParameters {
  cp_embedding_model : atom;
  cp_chunking_method : atom;
  cp_chunk_size : atom;
  cp_chunk_overlap_percentage : atom;
  cp_separators : atom;
  cp_custom_chunking : atom;
  cp_embedding_validation_id : option atom
}.

Record CreateArgs : Type := mkCreateArgs {
  arg_dataset_id : pyval;
  arg_chunking_parameters : option ChunkingParameters;
  arg_use_case : pyval;
  arg_name : pyval
}.

(** The platform as a script: the answer to the creation call, and the
    answer to the [k]-th fetch (counted from 0) of a given identifier.
    Either call may fail; such a failure is passed on as it is. *)
Record Remote : Type := mkRemote {
  VectorDatabase_create : CreateArgs → outcome VectorDatabase;
  VectorDatabase_get : nat → atom → outcome VectorDatabase
}.

(** The clock, in seconds, and the number of fetches issued so far.  Time
    passes only in [time.sleep]. *)
Record World : Type := mkWorld {
  now : Z;
  gets : nat
}.

Definition sleep (seconds : Z) (w : World) : World :=
  {| now := now w + seconds; gets := gets w |}.

Definition fetch (R : Remote) (id : atom) (w : World)
  : outcome VectorDatabase * World :=
  (VectorDatabase_get R (gets w) id, {| now := now w; gets := S (gets w) |}).

(** ** The lifecycle verb [create] *)

Record CreateResult : Type := mkCreateResult {
  id_ : atom;
  outs : gmap string pyval
}.

(** [options.get(key, default)] *)
Definition aget_default (d : gmap string atom) (key : string) (dflt : atom) : atom :=
  default dflt (d !! key).

(** The operational options: [(wait_for_completion, timeout_seconds)]. *)
Definition create_options (props : gmap string pyval) : outcome (atom * atom) :=
  match default (VDict ∅) (props !! "options") with
  | VDict options =>
      Ok (aget_default options "wait_for_completion" (ABool true),
          aget_default options "timeout_seconds" (AInt 600))
  | VAtom _ => Raise AttributeError
  end.

Definition build_chunking_params (chunking_parameters : pyval)
  : outcome (option ChunkingParameters) :=
  if py_truthy chunking_parameters
  then
    match chunking_parameters with
    | VDict d =>
        Ok (Some
          {| cp_embedding_model := aget d "embedding_model";
             cp_chunking_method := aget d "chunking_method";
             cp_chunk_size := aget d "chunk_size";
             cp_chunk_overlap_percentage := aget d "chunk_overlap_percentage";
             cp_separators := aget d "separators";
             cp_custom_chunking := aget_default d "custom_chunking" (ABool false);
             cp_embedding_validation_id :=
               if atom_truthy (aget d "embedding_validation_id")
               then Some (aget d "embedding_validation_id")
               else None |})
    | VAtom _ => Raise AttributeError
    end
  else Ok None.

Definition create_args (props : gmap string pyval) : outcome CreateArgs :=
  chunking_params ←
    build_chunking_params (default (VDict ∅) (props !! "chunking_parameters"));
  Ok {| arg_dataset_id := get props "dataset_id";
        arg_chunking_parameters := chunking_params;
        arg_use_case := get props "use_case_id";
        arg_name := get props "name" |}.

(** [status in ["COMPLETED", "FAILED"]] *)
Definition is_terminal (status : atom) : bool :=
  atom_eq status (AStr "COMPLETED") || atom_eq status (AStr "FAILED").

(** A timeout a number of seconds can be compared with, and its text. *)
Definition as_number (timeout_seconds : atom) : outcome (Z * string) :=
  match timeout_seconds with
  | AInt z => Ok (z, pretty z)
  | ABool b => Ok (Z.b2z b, if b then "True" else "False")
  | _ => Raise TypeError
  end.

Definition timeout_message (text : string) : string :=
  "Vector database creation timed out after " +:+ text +:+ " seconds".

Definition failure_message (error_message : option string) : string :=
  "Vector database creation failed: " +:+ default "None" error_message.

(** The polling loop.  [fuel] bounds the number of rounds; [None] is fuel
    run out, which [wait_loop_total] shows cannot happen for a numeric
    timeout once the fuel exceeds [timeout_seconds / 5 + 1]. *)
Fixpoint wait_loop (fuel : nat) (R : Remote) (timeout_seconds : atom)
    (start_time : Z) (vdb : VectorDatabase) (w : World)
  : option (outcome VectorDatabase * World) :=
  if is_terminal (vdb_execution_status vdb) then Some (Ok vdb, w)
  else
    match fuel with
    | O => None
    | S fuel' =>
        match as_number timeout_seconds with
        | Raise e => Some (Raise e, w)
        | Ok (limit, text) =>
            if bool_decide (limit < now w - start_time)%Z
            then Some (Raise (TimeoutError (timeout_message text)), w)
            else
              let w := sleep 5 w in
              match fetch R (vdb_id vdb) w with
              | (Raise e, w) => Some (Raise e, w)
              | (Ok vdb, w) =>
                  if atom_eq (vdb_execution_status vdb) (AStr "FAILED")
                  then Some (Raise (PyException
                                      (failure_message (vdb_error_message vdb))), w)
                  else wait_loop fuel' R timeout_seconds start_time vdb w
              end
        end
    end.

Definition create (fuel : nat) (R : Remote) (props : gmap string pyval) (w : World)
  : option (outcome CreateResult * World) :=
  match create_options props with
  | Raise e => Some (Raise e, w)
  | Ok (wait_for_completion, timeout_seconds) =>
      match create_args props ≫= VectorDatabase_create R with
      | Raise e => Some (Raise e, w)
      | Ok vdb =>
          '(r, w) ←
            (if atom_truthy wait_for_completion
             then wait_loop fuel R timeout_seconds (now w) vdb w
             else Some (Ok vdb, w));
          Some (vdb ← r;
                vdb_dict ← _vdb_to_dict vdb props;
                Ok {| id_ := vdb_id vdb; outs := vdb_dict |},
                w)
      end
  end.

(** ** The lifecycle verb [read] *)

Record ReadResult : Type := mkReadResult {
  read_id_ : atom;
  read_outs : gmap string pyval
}.

Definition read (R : Remote) (id : atom) (props : gmap string pyval) (w : World)
  : outcome ReadResult * World :=
  let '(r, w) := fetch R id w in
  (vdb ← r;
   vdb_dict ← _vdb_to_dict vdb props;
   Ok {| read_id_ := vdb_id vdb; read_outs := vdb_dict |},
   w).

(** ** The lifecycle verbs [update] and [delete] *)

(** The calls on a handle that change the platform: [vdb.update(name=...)],
    which answers with the renamed handle, and [vdb.delete()]. *)
Record Mutations : Type := mkMutations {
  VectorDatabase_update : VectorDatabase → pyval → outcome VectorDatabase;
  VectorDatabase_delete : VectorDatabase → outcome unit
}.

Record UpdateResult : Type := mkUpdateResult {
  update_outs : gmap string pyval
}.

Definition update (R : Remote) (M : Mutations) (id : atom)
    (old_props new_props : gmap string pyval) (w : World)
  : outcome UpdateResult * World :=
  let '(r, w) := fetch R id w in
  (vdb ← r;
   let name := get new_props "name" in
   vdb ← (if py_truthy name && negb (py_eq name (VAtom (vdb_name vdb)))
          then VectorDatabase_update M vdb name
          else Ok vdb);
   vdb_dict ← _vdb_to_dict vdb new_props;
   Ok {| update_outs := vdb_dict |},
   w).

(** The verb [delete] ([delete_vdb] here: [delete] is the removal of a key
    from a dictionary). *)
Definition delete_vdb (R : Remote) (M : Mutations) (id : atom)
    (props : gmap string pyval) (w : World)
  : outcome unit * World :=
  let '(r, w) := fetch R id w in
  (vdb ← r; VectorDatabase_delete M vdb, w).

(** ** The helpers that build a chunking group *)

(** The arguments of [ChunkingParametersArgs] and of
    [create_chunking_parameters]; an argument left out is [None], and
    [custom_chunking] left out is [False]. *)
Record HelperArgs : Type := mkHelperArgs {
  h_embedding_model : atom;
  h_chunking_method : atom;
  h_chunk_size : atom;
  h_chunk_overlap_percentage : atom;
  h_separators : atom;
  h_custom_chunking : atom;
  h_embedding_validation_id : atom
}.

(** The five entries both helpers always write. *)
Definition five_params (a : HelperArgs) : gmap string atom :=
  <["separators" := h_separators a]>
    (<["chunk_overlap_percentage" := h_chunk_overlap_percentage a]>
       (<["chunk_size" := h_chunk_size a]>
          (<["chunking_method" := h_chunking_method a]>
             (<["embedding_model" := h_embedding_model a]> ∅)))).

(** [custom_chunking] and [embedding_validation_id] are written only when
    truthy. *)
Definition with_optional (a : HelperArgs) (params : gmap string atom)
  : gmap string atom :=
  let params :=
    if atom_truthy (h_custom_chunking a)
    then <["custom_chunking" := h_custom_chunking a]> params
    else params in
  if atom_truthy (h_embedding_validation_id a)
  then <["embedding_validation_id" := h_embedding_validation_id a]> params
  else params.

(** The attributes of a [ChunkingParametersArgs] instance. *)
Definition ChunkingParametersArgs (a : HelperArgs) : gmap string atom :=
  with_optional a (five_params a).

(** [create_chunking_parameters]: the same entries, [None] values filtered
    out. *)
Definition create_chunking_parameters (a : HelperArgs) : gmap string atom :=
  filter (λ kv, kv.2 ≠ ANone) (with_optional a (five_params a)).

(** ** The resource: the property bag built by [DataRobotVectorDatabase] *)

(** The chunking argument of the resource: a dictionary, or an object, given
    by its attributes ([__dict__]). *)
Inductive chunking_input : Type :=
  | FromDict (d : gmap string atom)
  | FromObject (attributes : gmap string atom).

(** [k.startswith("_")] *)
Definition private (k : string) : bool :=
  match k with
  | String c _ => bool_decide (c = "_"%char)
  | EmptyString => false
  end.

Definition as_chunking_dict (chunking_parameters : chunking_input)
  : gmap string atom :=
  match chunking_parameters with
  | FromDict d => d
  | FromObject attributes => filter (λ kv, private kv.1 = false) attributes
  end.

(** [custom_chunking] is kept only when it is truthy. *)
Definition drop_falsy_custom_chunking (chunking_dict : gmap string atom)
  : gmap string atom :=
  match chunking_dict !! "custom_chunking" with
  | Some v =>
      if atom_truthy v then chunking_dict
      else delete "custom_chunking" chunking_dict
  | None => chunking_dict
  end.

(** The [props] handed to the provider.  [wait_for_completion] and
    [timeout_seconds] are parameters of the constructor. *)
Definition DataRobotVectorDatabase_props (resource_name : string)
    (dataset_id name use_case_id wait_for_completion timeout_seconds : pyval)
    (chunking_parameters : option chunking_input)
  : gmap string pyval :=
  let props :=
    <["name" := if is_None name
                then VAtom (AStr ("pulumi-vdb-" +:+ resource_name))
                else name]>
      (<["use_case_id" := use_case_id]>
         (<["dataset_id" := dataset_id]> ∅)) in
  match chunking_parameters with
  | Some given =>
      <["chunking_parameters" :=
          VDict (drop_falsy_custom_chunking (as_chunking_dict given))]> props
  | None => props
  end.

(** * Vocabulary of the statements and example inputs *)

(** ** Property bags *)

(** A value [sorted] accepts when it is not [None]: anything but a number. *)
Definition separators_ok (v : pyval) : bool :=
  match v with
  | VAtom (ABool _) | VAtom (AInt _) => false
  | _ => true
  end.

(** The typing of a property bag that [diff] relies on: the nested group,
    when declared, is a dictionary whose separators can be sorted. *)
Definition well_formed (props : gmap string pyval) : bool :=
  match props !! "chunking_parameters" with
  | None => true
  | Some (VDict cp) => separators_ok (VAtom (aget cp "separators"))
  | Some (VAtom _) => false
  end.

(** The name under which a changed field enters [replaces]. *)
Definition prefixed (field : string) : string := "chunking_parameters." +:+ field.

(** A nested group, and a declaration around it. *)
Definition ex_group : gmap string atom :=
  <["embedding_model" := AStr "jinaai/jina-embedding-t-en-v1"]>
    (<["chunking_method" := AStr "recursive"]>
       (<["chunk_size" := AInt 256]>
          (<["chunk_overlap_percentage" := AInt 10]>
             (<["separators" := AList ["."; " "; ","]]> ∅)))).

Definition ex_props (name : string) (group : gmap string atom) : gmap string pyval :=
  <["name" := VAtom (AStr name)]>
    (<["dataset_id" := VAtom (AStr "ds-1")]>
       (<["use_case_id" := VAtom (AStr "uc-1")]>
          (<["chunking_parameters" := VDict group]> ∅))).

(** ** Answers of [diff] *)

Definition no_change : DiffResult :=
  {| changes := false; replaces := ∅; delete_before_replace := false |}.

Definition update_only : DiffResult :=
  {| changes := true; replaces := ∅; delete_before_replace := false |}.

(** The single marker of the collapse. *)
Definition whole_group : gset string := {["chunking_parameters"]}.

(** The group [ex_group] with four, and with two, fields changed. *)
Definition ex_group_rechunked : gmap string atom :=
  <["embedding_model" := AStr "intfloat/e5-base-v2"]>
    (<["chunking_method" := AStr "semantic"]>
       (<["chunk_size" := AInt 512]>
          (<["chunk_overlap_percentage" := AInt 20]> ex_group))).

Definition ex_group_resized : gmap string atom :=
  <["chunk_size" := AInt 512]> (<["chunk_overlap_percentage" := AInt 20]> ex_group).

Definition ex_flagged : gset string :=
  list_to_set (prefixed <$> ["embedding_model"; "chunking_method";
                             "chunk_size"; "chunk_overlap_percentage"]).

(** A tracked state in the flat layout, with the values of [ex_group]. *)
Definition ex_flat_state : gmap string pyval :=
  <["id" := VAtom (AStr "vdb-1")]>
    (<["name" := VAtom (AStr "docs")]>
       (<["dataset_id" := VAtom (AStr "ds-1")]>
          (<["use_case_id" := VAtom (AStr "uc-1")]> (lift ex_group)))).

(** A flat state without [embedding_model], and a nested declaration with a
    different chunk size. *)
Definition ex_flat_no_model : gmap string pyval :=
  <["name" := VAtom (AStr "docs")]> (<["chunk_size" := VAtom (AInt 100)]> ∅).

Definition ex_nested_resized : gmap string pyval :=
  <["name" := VAtom (AStr "docs")]>
    (<["chunking_parameters" := VDict {["chunk_size" := AInt 200]}]> ∅).

(** ** The codec *)

(** The keys that are always tracked. *)
Definition core_keys : gset string := {["id"; "name"; "use_case_id"; "dataset_id"]}.

(** The five fields the flat layout always writes. *)
Definition flat_fields : list string :=
  [ "embedding_model"; "chunking_method"; "chunk_size";
    "chunk_overlap_percentage"; "separators" ].

(** The keys a reference group declares: what iterating it yields. *)
Definition declared_keys (v : pyval) : list string :=
  match py_iter v with
  | Ok keys => keys
  | Raise _ => []
  end.

(** The last step of the codec: [chunks_count] and [execution_status] are
    added when the reference has these keys. *)
Definition observed (vdb : VectorDatabase) (props result : gmap string pyval)
  : gmap string pyval :=
  let result :=
    if has props "chunks_count"
    then <["chunks_count" := VAtom (vdb_chunks_count vdb)]> result
    else result in
  if has props "execution_status"
  then <["execution_status" := VAtom (vdb_execution_status vdb)]> result
  else result.

Definition ex_vdb : VectorDatabase :=
  {| vdb_id := AStr "vdb-1";
     vdb_name := AStr "docs";
     vdb_use_case_id := AStr "uc-1";
     vdb_dataset_id := AStr "ds-1";
     vdb_chunks_count := AInt 42;
     vdb_execution_status := AStr "COMPLETED";
     vdb_embedding_model := AStr "jinaai/jina-embedding-t-en-v1";
     vdb_chunking_method := AStr "recursive";
     vdb_chunk_size := AInt 256;
     vdb_chunk_overlap_percentage := AInt 10;
     vdb_separators := AList ["."; " "; ","];
     vdb_custom_chunking := ABool false;
     vdb_embedding_validation_id := None;
     vdb_error_message := None |}.

(** The same resource once the platform reports custom chunking. *)
Definition ex_vdb_custom : VectorDatabase :=
  {| vdb_id := AStr "vdb-1";
     vdb_name := AStr "docs";
     vdb_use_case_id := AStr "uc-1";
     vdb_dataset_id := AStr "ds-1";
     vdb_chunks_count := AInt 42;
     vdb_execution_status := AStr "COMPLETED";
     vdb_embedding_model := AStr "jinaai/jina-embedding-t-en-v1";
     vdb_chunking_method := AStr "recursive";
     vdb_chunk_size := AInt 256;
     vdb_chunk_overlap_percentage := AInt 10;
     vdb_separators := AList ["."; " "; ","];
     vdb_custom_chunking := ABool true;
     vdb_embedding_validation_id := None;
     vdb_error_message := None |}.

(** A platform that answers every call with the same handle. *)
Definition constant_remote (vdb : VectorDatabase) : Remote :=
  {| VectorDatabase_create := λ _, Ok vdb;
     VectorDatabase_get := λ _ _, Ok vdb |}.

(** ** The platform and the clock *)

Definition w0 : World := {| now := 0; gets := 0 |}.

(** The output in the nested layout for the resource [ex_vdb], with a given
    nested group. *)
Definition ex_nested_out (group : gmap string atom) : gmap string pyval :=
  <["id" := VAtom (AStr "vdb-1")]>
    (<["name" := VAtom (AStr "docs")]>
       (<["dataset_id" := VAtom (AStr "ds-1")]>
          (<["use_case_id" := VAtom (AStr "uc-1")]>
             (<["chunking_parameters" := VDict group]> ∅)))).

Definition ex_flat_out_custom : gmap string pyval :=
  <["custom_chunking" := PTrue]> ex_flat_state.

(** One round of polling: five seconds later, one more fetch issued. *)
Definition tick (w : World) : World :=
  {| now := now w + 5; gets := S (gets w) |}.

(** The number of rounds the loop runs when no terminal status shows up:
    one per check that finds the elapsed time within the limit. *)
Definition rounds (limit elapsed : Z) : nat :=
  if decide (limit < elapsed)%Z then 0 else S (Z.to_nat ((limit - elapsed) / 5)).

(** Fuel that is enough for the loop, whatever the platform answers. *)
Definition enough_fuel (timeout_seconds : atom) (elapsed : Z) : nat :=
  match as_number timeout_seconds with
  | Ok (limit, _) => S (rounds limit elapsed)
  | Raise _ => 1
  end.


(** The world after [n] rounds of polling. *)
Definition advance (n : nat) (w : World) : World :=
  {| now := now w + 5 * Z.of_nat n; gets := gets w + n |}.

(** A handle with another status and error message. *)
Definition with_status (status : string) (error_message : option string)
    (vdb : VectorDatabase) : VectorDatabase :=
  {| vdb_id := vdb_id vdb;
     vdb_name := vdb_name vdb;
     vdb_use_case_id := vdb_use_case_id vdb;
     vdb_dataset_id := vdb_dataset_id vdb;
     vdb_chunks_count := vdb_chunks_count vdb;
     vdb_execution_status := AStr status;
     vdb_embedding_model := vdb_embedding_model vdb;
     vdb_chunking_method := vdb_chunking_method vdb;
     vdb_chunk_size := vdb_chunk_size vdb;
     vdb_chunk_overlap_percentage := vdb_chunk_overlap_percentage vdb;
     vdb_separators := vdb_separators vdb;
     vdb_custom_chunking := vdb_custom_chunking vdb;
     vdb_embedding_validation_id := vdb_embedding_validation_id vdb;
     vdb_error_message := error_message |}.


(** A platform whose creation call already answers [FAILED]. *)
Definition failed_remote : Remote :=
  constant_remote (with_status "FAILED" (Some "embedding model unavailable") ex_vdb).


(** What [create] returns for the handle it ends with. *)
Definition created (vdb : VectorDatabase) (props : gmap string pyval)
  : outcome CreateResult :=
  vdb_dict ← _vdb_to_dict vdb props;
  Ok {| id_ := vdb_id vdb; outs := vdb_dict |}.

(** ** The comparator and the codec, key by key *)

(** Does the comparator report [key]? *)
Definition key_flagged (old_params new_params : gmap string pyval) (key : string)
  : bool :=
  match key_changed key (get old_params key) (get new_params key) with
  | Ok c => c
  | Raise _ => false
  end.

(** The remote field the nested layout writes under [key], if any. *)
Definition remote_field (vdb : VectorDatabase) (key : string) : option atom :=
  if bool_decide (key = "embedding_model") then Some (vdb_embedding_model vdb)
  else if bool_decide (key = "chunking_method") then Some (vdb_chunking_method vdb)
  else if bool_decide (key = "chunk_size") then Some (vdb_chunk_size vdb)
  else if bool_decide (key = "chunk_overlap_percentage")
  then Some (vdb_chunk_overlap_percentage vdb)
  else if bool_decide (key = "separators") then Some (vdb_separators vdb)
  else if bool_decide (key = "embedding_validation_id")
  then vdb_embedding_validation_id vdb
  else None.

(** A value that is neither [None] nor iterable. *)
Definition is_number (v : pyval) : bool := negb (separators_ok v).

(** Example arguments of the helpers. *)
Definition ex_args : HelperArgs :=
  {| h_embedding_model := AStr "jinaai/jina-embedding-t-en-v1";
     h_chunking_method := AStr "recursive";
     h_chunk_size := AInt 256;
     h_chunk_overlap_percentage := ANone;
     h_separators := AList ["."; " "; ","];
     h_custom_chunking := ABool false;
     h_embedding_validation_id := ANone |}.

(** A platform that renames as asked and deletes without error. *)
Definition obliging : Mutations :=
  {| VectorDatabase_update := λ vdb name,
       Ok (match name with
           | VAtom a =>
               {| vdb_id := vdb_id vdb; vdb_name := a;
                  vdb_use_case_id := vdb_use_case_id vdb;
                  vdb_dataset_id := vdb_dataset_id vdb;
                  vdb_chunks_count := vdb_chunks_count vdb;
                  vdb_execution_status := vdb_execution_status vdb;
                  vdb_embedding_model := vdb_embedding_model vdb;
                  vdb_chunking_method := vdb_chunking_method vdb;
                  vdb_chunk_size := vdb_chunk_size vdb;
                  vdb_chunk_overlap_percentage := vdb_chunk_overlap_percentage vdb;
                  vdb_separators := vdb_separators vdb;
                  vdb_custom_chunking := vdb_custom_chunking vdb;
                  vdb_embedding_validation_id := vdb_embedding_validation_id vdb;
                  vdb_error_message := vdb_error_message vdb |}
           | VDict _ => vdb
           end);
     VectorDatabase_delete := λ _, Ok () |}.

(** * Properties *)

(** ** Equality of values *)

Lemma atom_eq_refl (a : atom) : atom_eq a a = true.
Proof. destruct a; simpl; try done; by apply bool_decide_eq_true_2. Qed.

Lemma py_eq_refl (v : pyval) : py_eq v v = true.
Proof.
  destruct v as [a|d]; simpl; [apply atom_eq_refl|].
  by apply bool_decide_eq_true_2.
Qed.

Lemma atom_eq_norm (a b : atom) : atom_eq a b = bool_decide (atom_norm a = atom_norm b).
Proof.
  destruct a, b; simpl; try done;
    apply bool_decide_ext; split; intros; simplify_eq; try done.
  - by destruct b, b0.
Qed.

(** ** Sorting strings *)

Section sorting.

Lemma leb_trans (a b c : string) :
  String.leb a b = true → String.leb b c = true → String.leb a c = true.
Proof.
  unfold String.leb.
  destruct (String.compare a b) eqn:Hab; [| |done].
  - apply String.compare_eq_iff in Hab as ->. done.
  - destruct (String.compare b c) eqn:Hbc; [| |done]; intros _ _.
    + apply String.compare_eq_iff in Hbc as <-. by rewrite Hab.
    + apply String_as_OT.cmp_lt in Hab, Hbc.
      pose proof (String_as_OT.lt_trans _ _ _ Hab Hbc) as Hac.
      apply String_as_OT.cmp_lt in Hac.
      unfold String_as_OT.cmp in Hac. by rewrite Hac.
Qed.

Lemma leb_false_flip (a b : string) :
  String.leb a b = false → String.leb b a = true.
Proof. destruct (String.leb_total a b); congruence. Qed.

Lemma insert_sorted_comm (a b : string) (l : list string) :
  insert_sorted a (insert_sorted b l) = insert_sorted b (insert_sorted a l).
Proof.
  induction l as [|y l IH]; simpl.
  - destruct (String.leb a b) eqn:Hab, (String.leb b a) eqn:Hba; try done.
    + by rewrite (String.leb_antisym _ _ Hab Hba).
    + apply leb_false_flip in Hab. congruence.
  - destruct (String.leb a y) eqn:Hay, (String.leb b y) eqn:Hby; simpl;
      rewrite ?Hay, ?Hby.
    + destruct (String.leb a b) eqn:Hab, (String.leb b a) eqn:Hba;
        rewrite ?Hay, ?Hby; try done.
      * by rewrite (String.leb_antisym _ _ Hab Hba).
      * apply leb_false_flip in Hab. congruence.
    + destruct (String.leb b a) eqn:Hba; [|done].
      by rewrite (leb_trans _ _ _ Hba Hay) in Hby.
    + destruct (String.leb a b) eqn:Hab; [|done].
      by rewrite (leb_trans _ _ _ Hab Hby) in Hay.
    + by rewrite IH.
Qed.

(** The result of [sorted] depends on the elements and their
    multiplicities only. *)
Lemma sort_strings_perm (l1 l2 : list string) :
  l1 ≡ₚ l2 → sort_strings l1 = sort_strings l2.
Proof.
  unfold sort_strings.
  induction 1 as [|x l1 l2 _ IH|x y l|l1 l2 l3 _ IH1 _ IH2]; simpl.
  - done.
  - by rewrite IH.
  - apply insert_sorted_comm.
  - congruence.
Qed.

Lemma insert_sorted_perm (x : string) (l : list string) :
  insert_sorted x l ≡ₚ x :: l.
Proof.
  induction l as [|y l IH]; simpl; [done|].
  destruct (String.leb x y); [done|].
  rewrite IH. apply perm_swap.
Qed.

(** [sorted] keeps every element, with its multiplicity. *)
Lemma sort_strings_permutation (l : list string) : sort_strings l ≡ₚ l.
Proof.
  induction l as [|x l IH]; simpl; [done|].
  unfold sort_strings in *; simpl.
  by rewrite insert_sorted_perm, IH.
Qed.

Lemma sort_strings_length (l : list string) :
  length (sort_strings l) = length l.
Proof. by rewrite sort_strings_permutation. Qed.

End sorting.

(** ** The comparator *)

Lemma get_lift (d : gmap string atom) (key : string) :
  get (lift d) key = VAtom (aget d key).
Proof. unfold get, aget, lift. rewrite lookup_fmap. by destruct (d !! key). Qed.

Lemma has_lift (d : gmap string atom) (key : string) :
  has (lift d) key = has d key.
Proof.
  unfold has, lift. rewrite lookup_fmap. apply bool_decide_ext.
  by rewrite fmap_is_Some.
Qed.

Lemma sorted_ok (v : pyval) :
  separators_ok v = true → is_None v = false → ∃ l, sorted v = Ok l.
Proof.
  unfold sorted. destruct v as [[| | | |]|]; simpl; try done; eauto.
Qed.

Lemma key_changed_same (key : string) (v : pyval) :
  (key = "separators" → separators_ok v = true) →
  key_changed key v v = Ok false.
Proof.
  intros Hsep. unfold key_changed.
  destruct (is_None v) eqn:Hnone; simpl; [done|].
  destruct (bool_decide (key = "custom_chunking") && (is_False v && is_False v));
    [done|].
  case_bool_decide as Hkey; simpl.
  - destruct (sorted_ok v (Hsep Hkey) Hnone) as [l ->]. simpl.
    by rewrite bool_decide_eq_true_2.
  - by rewrite py_eq_refl.
Qed.

Lemma params_loop_unchanged (keys : list string) (old_params new_params : gmap string pyval)
    (changed : bool) (changed_fields : list string) :
  (∀ key, key ∈ keys →
     key_changed key (get old_params key) (get new_params key) = Ok false) →
  params_loop keys old_params new_params changed changed_fields
  = Ok (changed, changed_fields).
Proof.
  induction keys as [|key keys IH]; intros Hkeys; simpl; [done|].
  rewrite Hkeys by left. simpl. apply IH. intros k Hk. apply Hkeys. by right.
Qed.

(** What the loop adds: a sub-sequence of the keys it ran over, and the flag
    is raised exactly when something was added. *)
Lemma params_loop_inv (keys : list string) (old_params new_params : gmap string pyval)
    (changed : bool) (changed_fields : list string) (c : bool) (fs : list string) :
  params_loop keys old_params new_params changed changed_fields = Ok (c, fs) →
  ∃ added, fs = (changed_fields ++ added)%list ∧ added `sublist_of` keys
           ∧ c = changed || negb (bool_decide (added = [])).
Proof.
  revert changed changed_fields.
  induction keys as [|key keys IH]; intros changed changed_fields; simpl.
  - intros [= <- <-]. exists []. rewrite app_nil_r, orb_false_r. done.
  - destruct (key_changed key _ _) as [[|]|e]; simpl; [| |done]; intros Hloop.
    + apply IH in Hloop as (added & -> & Hsub & ->).
      exists (key :: added). rewrite <-app_assoc. simpl.
      split_and!; [done|by constructor|].
      by rewrite orb_true_r.
    + apply IH in Hloop as (added & -> & Hsub & ->).
      exists added. split_and!; [done|by constructor|done].
Qed.

Lemma keys_to_compare_NoDup : NoDup keys_to_compare.
Proof. compute_done. Qed.

Lemma chunking_params_diff_inv (old_params new_params : gmap string pyval)
    (c : bool) (fs : list string) :
  _chunking_params_diff old_params new_params = Ok (c, fs) →
  fs `sublist_of` keys_to_compare ∧ NoDup fs ∧ c = negb (bool_decide (fs = [])).
Proof.
  intros (added & -> & Hsub & ->)%params_loop_inv. simpl.
  split_and!; [done| |done].
  eapply sublist_NoDup; [apply keys_to_compare_NoDup|done].
Qed.

Lemma compare_chunking_inv (old_cp : gmap string pyval) (new_cp : pyval)
    (c : bool) (fs : list string) :
  compare_chunking old_cp new_cp = Ok (c, fs) →
  fs `sublist_of` keys_to_compare ∧ NoDup fs ∧ c = negb (bool_decide (fs = [])).
Proof.
  unfold compare_chunking. destruct new_cp as [a|n]; [done|].
  destruct (_ && _); apply chunking_params_diff_inv.
Qed.

Lemma chunking_params_diff_agree (old_params new_params : gmap string pyval) :
  (∀ key, key ∈ keys_to_compare →
     key_changed key (get old_params key) (get new_params key) = Ok false) →
  _chunking_params_diff old_params new_params = Ok (false, []).
Proof. apply params_loop_unchanged. Qed.

Lemma compare_chunking_same (cp : gmap string atom) :
  separators_ok (VAtom (aget cp "separators")) = true →
  compare_chunking (lift cp) (VDict cp) = Ok (false, []).
Proof.
  intros Hsep. unfold compare_chunking.
  assert (negb (has (lift cp) "custom_chunking")
          && bool_decide (aget cp "custom_chunking" = ABool false) = false) as ->.
  { rewrite has_lift. unfold has, aget.
    by destruct (cp !! "custom_chunking"). }
  apply chunking_params_diff_agree. intros key _.
  apply key_changed_same. intros ->. by rewrite get_lift.
Qed.

Lemma has_true {V : Type} (d : gmap string V) (key : string) (v : V) :
  d !! key = Some v → has d key = true.
Proof. intros H. unfold has. rewrite H. by apply bool_decide_eq_true_2. Qed.

Lemma has_false {V : Type} (d : gmap string V) (key : string) :
  d !! key = None → has d key = false.
Proof.
  intros H. unfold has. rewrite H. apply bool_decide_eq_false_2.
  by intros [? ?].
Qed.

Lemma get_Some (d : gmap string pyval) (key : string) (v : pyval) :
  d !! key = Some v → get d key = v.
Proof. intros H. unfold get. by rewrite H. Qed.

(** ** The comparison part of [diff] *)

Lemma add_replaces_spec (changed_fields : list string) (replaces : gset string) :
  add_replaces changed_fields replaces
  = list_to_set (prefixed <$> changed_fields) ∪ replaces.
Proof.
  unfold add_replaces. revert replaces.
  induction changed_fields as [|f fs IH]; intros replaces; simpl.
  - set_solver.
  - rewrite IH. unfold prefixed. set_solver.
Qed.

(** The fields [diff] has flagged before the collapse are the prefixed
    output of the comparator, and [changes] is the name test or the
    comparator's verdict. *)
Lemma diff_compare_inv (old_props new_props : gmap string pyval)
    (changed : bool) (flagged : gset string) :
  diff_compare old_props new_props = Ok (changed, flagged) →
  ∃ fields : list string,
    fields `sublist_of` keys_to_compare ∧ NoDup fields
    ∧ flagged = list_to_set (prefixed <$> fields)
    ∧ changed = negb (py_eq (get old_props "name") (get new_props "name"))
                || negb (bool_decide (fields = [])).
Proof.
  assert (∀ r : outcome (bool * list string),
    (answer ← r;
     Ok (flag_fields (negb (py_eq (get old_props "name") (get new_props "name")))
                     answer))
    = Ok (changed, flagged) →
    (∀ c fs, r = Ok (c, fs) →
       fs `sublist_of` keys_to_compare ∧ NoDup fs ∧ c = negb (bool_decide (fs = []))) →
    ∃ fields : list string,
      fields `sublist_of` keys_to_compare ∧ NoDup fields
      ∧ flagged = list_to_set (prefixed <$> fields)
      ∧ changed = negb (py_eq (get old_props "name") (get new_props "name"))
                  || negb (bool_decide (fields = []))) as Hbranch.
  { intros [[c fs]|e]; simpl; [|done]. intros Hres Hinv.
    destruct (Hinv c fs eq_refl) as (Hsub & Hnd & ->).
    case_bool_decide as Hfs; simpl in Hres; injection Hres as <- <-.
    - subst fs. exists []. split_and!; try done. by destruct (py_eq _ _).
    - exists fs. split_and!; try done.
      + rewrite add_replaces_spec. set_solver.
      + by rewrite (bool_decide_eq_false_2 _ Hfs), orb_true_r. }
  unfold diff_compare.
  destruct (has new_props "chunking_parameters" && has old_props "chunking_parameters").
  - destruct (get old_props "chunking_parameters") as [[| | | |]|old_cp]; try done.
    intros Hres. eapply Hbranch; [exact Hres|]. apply compare_chunking_inv.
  - destruct (has new_props "chunking_parameters" && has old_props "embedding_model").
    + intros Hres. eapply Hbranch; [exact Hres|]. apply compare_chunking_inv.
    + intros [= <- <-]. exists []. split_and!; try done.
      * apply sublist_nil_l.
      * constructor.
      * by rewrite orb_false_r.
Qed.

Lemma diff_compare_nested (old_props new_props : gmap string pyval)
    (old_cp : gmap string atom) (new_cp : pyval) :
  old_props !! "chunking_parameters" = Some (VDict old_cp) →
  new_props !! "chunking_parameters" = Some new_cp →
  diff_compare old_props new_props
  = (answer ← compare_chunking (lift old_cp) new_cp;
     Ok (flag_fields (negb (py_eq (get old_props "name") (get new_props "name")))
                     answer)).
Proof.
  intros Hold Hnew. unfold diff_compare.
  by rewrite (has_true _ _ _ Hold), (has_true _ _ _ Hnew),
             (get_Some _ _ _ Hold), (get_Some _ _ _ Hnew).
Qed.

Lemma diff_compare_flat (old_props new_props : gmap string pyval) (new_cp : pyval) :
  old_props !! "chunking_parameters" = None →
  is_Some (old_props !! "embedding_model") →
  new_props !! "chunking_parameters" = Some new_cp →
  diff_compare old_props new_props
  = (answer ← compare_chunking (old_flat old_props) new_cp;
     Ok (flag_fields (negb (py_eq (get old_props "name") (get new_props "name")))
                     answer)).
Proof.
  intros Hold [v Hem] Hnew. unfold diff_compare.
  by rewrite (has_false _ _ Hold), (has_true _ _ _ Hem), (has_true _ _ _ Hnew),
             (get_Some _ _ _ Hnew).
Qed.

Lemma diff_compare_undeclared (old_props new_props : gmap string pyval) :
  new_props !! "chunking_parameters" = None →
  diff_compare old_props new_props
  = Ok (negb (py_eq (get old_props "name") (get new_props "name")), ∅).
Proof. intros Hnew. unfold diff_compare. by rewrite (has_false _ _ Hnew). Qed.

Lemma prefixed_inj : Inj (=) (=) prefixed.
Proof. unfold prefixed. apply _. Qed.

Lemma size_flagged (fields : list string) :
  NoDup fields →
  size (list_to_set (prefixed <$> fields) : gset string) = length fields.
Proof.
  intros Hnd. rewrite size_list_to_set, length_fmap; [done|].
  apply NoDup_fmap_2; [apply prefixed_inj|done].
Qed.

Lemma collapse_empty : collapse ∅ = ∅.
Proof. done. Qed.

Lemma diff_of_unflagged (id : string) (old_props new_props : gmap string pyval)
    (changed : bool) :
  diff_compare old_props new_props = Ok (changed, ∅) →
  diff id old_props new_props
  = Ok {| changes := changed; replaces := ∅; delete_before_replace := false |}.
Proof. unfold diff. by intros ->. Qed.

(** The flat fields of a legacy state, key by key. *)
Lemma old_flat_lookup (old_props : gmap string pyval) (key : string) :
  old_flat old_props !! key
  = if bool_decide (key ∈ keys_to_compare) then old_props !! key else None.
Proof.
  unfold old_flat.
  assert (∀ (l : list string) (acc : gmap string pyval),
    foldl (λ acc field,
             match old_props !! field with
             | Some v => <[field := v]> acc
             | None => acc
             end) acc l !! key
    = if bool_decide (key ∈ l)
      then match old_props !! key with Some v => Some v | None => acc !! key end
      else acc !! key) as Hfold.
  { induction l as [|f l IH]; intros acc; simpl; [done|].
    rewrite IH. destruct (decide (key = f)) as [->|Hne].
    - rewrite (bool_decide_eq_true_2 (f ∈ f :: l)) by left.
      destruct (old_props !! f) as [v|] eqn:Hf.
      + rewrite lookup_insert_eq. by case_bool_decide.
      + by case_bool_decide.
    - assert (bool_decide (key ∈ f :: l) = bool_decide (key ∈ l)) as ->.
      { apply bool_decide_ext. set_solver. }
      destruct (old_props !! f) as [v|]; [|done].
      by rewrite lookup_insert_ne. }
  rewrite Hfold, lookup_empty.
  case_bool_decide; [|done]. by destruct (old_props !! key).
Qed.

(** ** A difference of name only *)

(** C1.  Two property bags that are identical except for [name], the names
    being unequal and the nested group (when declared) a dictionary with
    separators that can be sorted, give [changes = True] and no replacement
    field. *)
Theorem diff_name_only (id : string) (old_props new_props : gmap string pyval) :
  delete "name" old_props = delete "name" new_props →
  py_eq (get old_props "name") (get new_props "name") = false →
  well_formed old_props = true →
  diff id old_props new_props = Ok update_only.
Proof.
  intros Hsame Hname Hwf.
  assert (∀ key, key ≠ "name" → old_props !! key = new_props !! key) as Hkey.
  { intros key Hne.
    rewrite <-(lookup_delete_ne old_props "name" key),
            <-(lookup_delete_ne new_props "name" key) by done.
    by rewrite Hsame. }
  apply diff_of_unflagged. unfold well_formed in Hwf.
  destruct (old_props !! "chunking_parameters") as [[a|cp]|] eqn:Hold; [done| |].
  - rewrite (diff_compare_nested _ _ cp (VDict cp)); [|done|].
    + rewrite compare_chunking_same by done. simpl. by rewrite Hname.
    + by rewrite <-Hkey.
  - rewrite diff_compare_undeclared; [by rewrite Hname|]. by rewrite <-Hkey.
Qed.

Lemma diff_name_only_witness :
  diff "vdb" (ex_props "docs" ex_group) (ex_props "docs-v2" ex_group) = Ok update_only.
Proof. apply diff_name_only; vm_compute; reflexivity. Defined.

(** ** [custom_chunking]: absent against [False] *)

(** C2, as the code has it.  Old side without the [custom_chunking] key, new
    side with [custom_chunking = False], the two groups agreeing on every
    other key and the names equal: no change. *)
Theorem diff_custom_chunking_absent_vs_false (id : string)
    (old_props new_props : gmap string pyval) (old_cp new_cp : gmap string atom) :
  old_props !! "chunking_parameters" = Some (VDict old_cp) →
  new_props !! "chunking_parameters" = Some (VDict new_cp) →
  old_cp !! "custom_chunking" = None →
  new_cp !! "custom_chunking" = Some (ABool false) →
  delete "custom_chunking" new_cp = old_cp →
  py_eq (get old_props "name") (get new_props "name") = true →
  separators_ok (VAtom (aget old_cp "separators")) = true →
  diff id old_props new_props = Ok no_change.
Proof.
  intros Hold Hnew Habsent Hfalse Hrest Hname Hsep.
  apply diff_of_unflagged.
  rewrite (diff_compare_nested _ _ old_cp (VDict new_cp)) by done.
  unfold compare_chunking.
  assert (aget new_cp "custom_chunking" = ABool false) as ->
    by (unfold aget; by rewrite Hfalse).
  rewrite has_lift, (has_false _ _ Habsent). simpl. rewrite Hrest.
  rewrite chunking_params_diff_agree; [simpl; by rewrite Hname|].
  intros key _. apply key_changed_same. intros ->. by rewrite get_lift.
Qed.

Lemma diff_custom_chunking_absent_vs_false_witness :
  diff "vdb" (ex_props "docs" ex_group)
             (ex_props "docs" (<["custom_chunking" := ABool false]> ex_group))
  = Ok no_change.
Proof.
  apply (diff_custom_chunking_absent_vs_false _ _ _ ex_group
           (<["custom_chunking" := ABool false]> ex_group));
    vm_compute; reflexivity.
Defined.

(** The other direction: old side with [custom_chunking = False], new side
    without the key.  The field is flagged. *)
Lemma diff_custom_chunking_false_vs_absent :
  diff "vdb" (ex_props "docs" (<["custom_chunking" := ABool false]> ex_group))
             (ex_props "docs" ex_group)
  = Ok {| changes := true;
          replaces := {["chunking_parameters.custom_chunking"]};
          delete_before_replace := false |}.
Proof. vm_compute. reflexivity. Qed.

(** ** Separators *)

(** C3, as the code has it.  The separators are compared through [sorted]:
    two groups that differ only in the order of their separators (one list a
    permutation of the other) give no change. *)
Theorem diff_separators_permutation (id : string)
    (old_props new_props : gmap string pyval) (old_cp new_cp : gmap string atom)
    (l1 l2 : list string) :
  old_props !! "chunking_parameters" = Some (VDict old_cp) →
  new_props !! "chunking_parameters" = Some (VDict new_cp) →
  old_cp !! "separators" = Some (AList l1) →
  new_cp !! "separators" = Some (AList l2) →
  l1 ≡ₚ l2 →
  delete "separators" old_cp = delete "separators" new_cp →
  py_eq (get old_props "name") (get new_props "name") = true →
  diff id old_props new_props = Ok no_change.
Proof.
  intros Hold Hnew Hl1 Hl2 Hperm Hrest Hname.
  assert (∀ key, key ≠ "separators" → old_cp !! key = new_cp !! key) as Hkey.
  { intros key Hne.
    rewrite <-(lookup_delete_ne old_cp "separators" key),
            <-(lookup_delete_ne new_cp "separators" key) by done.
    by rewrite Hrest. }
  apply diff_of_unflagged.
  rewrite (diff_compare_nested _ _ old_cp (VDict new_cp)) by done.
  unfold compare_chunking.
  assert (negb (has (lift old_cp) "custom_chunking")
          && bool_decide (aget new_cp "custom_chunking" = ABool false) = false)
    as ->.
  { rewrite has_lift. unfold has, aget.
    rewrite <-(Hkey "custom_chunking") by done.
    by destruct (old_cp !! "custom_chunking"). }
  rewrite chunking_params_diff_agree; [simpl; by rewrite Hname|].
  intros key _. rewrite !get_lift. unfold aget.
  destruct (decide (key = "separators")) as [->|Hne].
  - rewrite Hl1, Hl2. unfold key_changed. simpl.
    rewrite (sort_strings_perm _ _ Hperm). by rewrite bool_decide_eq_true_2.
  - rewrite <-(Hkey key) by done. apply key_changed_same. done.
Qed.

Lemma diff_separators_permutation_witness :
  diff "vdb"
    (ex_props "docs" (<["separators" := AList ["."; " "; ","]]> ex_group))
    (ex_props "docs" (<["separators" := AList [","; "."; " "]]> ex_group))
  = Ok no_change.
Proof.
  apply (diff_separators_permutation _ _ _
           (<["separators" := AList ["."; " "; ","]]> ex_group)
           (<["separators" := AList [","; "."; " "]]> ex_group)
           ["."; " "; ","] [","; "."; " "]);
    try (vm_compute; reflexivity).
  apply (Permutation_app_comm ["."; " "] [","]).
Defined.

(** Two lists with the same elements but different multiplicities are
    reported as a change of the separators. *)
Lemma diff_separators_duplicates :
  diff "vdb"
    (ex_props "docs" (<["separators" := AList ["."; "."; " "]]> ex_group))
    (ex_props "docs" (<["separators" := AList ["."; " "]]> ex_group))
  = Ok {| changes := true;
          replaces := {["chunking_parameters.separators"]};
          delete_before_replace := false |}.
Proof. vm_compute. reflexivity. Qed.

(** ** The collapse *)

(** C4.  The fields flagged before the collapse are the prefixed names of
    distinct compared keys, as many as the comparator reported.  When more
    than three are flagged, [diff] returns the single marker
    [chunking_parameters] in their place; with three or fewer it returns the
    flagged [chunking_parameters.<key>] entries as they are. *)
Theorem diff_collapse_rule (id : string) (old_props new_props : gmap string pyval)
    (changed : bool) (flagged : gset string) :
  diff_compare old_props new_props = Ok (changed, flagged) →
  ∃ fields : list string,
    fields `sublist_of` keys_to_compare
    ∧ flagged = list_to_set (prefixed <$> fields)
    ∧ size flagged = length fields
    ∧ diff id old_props new_props
      = Ok {| changes := changed;
              replaces := if bool_decide (3 < length fields)
                          then whole_group
                          else list_to_set (prefixed <$> fields);
              delete_before_replace := false |}.
Proof.
  intros Hcmp.
  destruct (diff_compare_inv _ _ _ _ Hcmp) as (fields & Hsub & Hnd & -> & _).
  exists fields. split_and!; [done|done|by apply size_flagged|].
  unfold diff. rewrite Hcmp. simpl. unfold collapse.
  by rewrite size_flagged.
Qed.

Lemma diff_collapse_rule_witness :
  ∃ fields : list string,
    fields `sublist_of` keys_to_compare
    ∧ ex_flagged = list_to_set (prefixed <$> fields)
    ∧ size ex_flagged = length fields
    ∧ diff "vdb" (ex_props "docs" ex_group) (ex_props "docs" ex_group_rechunked)
      = Ok {| changes := true;
              replaces := if bool_decide (3 < length fields)
                          then whole_group
                          else list_to_set (prefixed <$> fields);
              delete_before_replace := false |}.
Proof.
  apply (diff_collapse_rule "vdb" (ex_props "docs" ex_group)
           (ex_props "docs" ex_group_rechunked) true).
  vm_compute. reflexivity.
Defined.

Example diff_four_fields_collapse :
  diff "vdb" (ex_props "docs" ex_group) (ex_props "docs" ex_group_rechunked)
  = Ok {| changes := true; replaces := whole_group;
          delete_before_replace := false |}.
Proof. vm_compute. reflexivity. Qed.

Example diff_two_fields_kept :
  diff "vdb" (ex_props "docs" ex_group) (ex_props "docs" ex_group_resized)
  = Ok {| changes := true;
          replaces := {[ "chunking_parameters.chunk_size";
                         "chunking_parameters.chunk_overlap_percentage" ]};
          delete_before_replace := false |}.
Proof. vm_compute. reflexivity. Qed.

(** ** Replacement fields imply a change *)

(** C10.  Whenever [diff] returns, a non-empty [replaces] comes with
    [changes = True]. *)
Theorem diff_replaces_imply_changes (id : string)
    (old_props new_props : gmap string pyval) (r : DiffResult) :
  diff id old_props new_props = Ok r →
  replaces r ≠ ∅ →
  changes r = true.
Proof.
  unfold diff.
  destruct (diff_compare old_props new_props) as [[changed flagged]|e] eqn:Hcmp;
    simpl; [|done].
  intros [= <-]. simpl. intros Hne.
  destruct (diff_compare_inv _ _ _ _ Hcmp) as (fields & _ & _ & -> & ->).
  destruct fields as [|f fields]; [|apply orb_true_r].
  by destruct Hne.
Qed.

Lemma diff_replaces_imply_changes_witness :
  changes {| changes := true;
             replaces := {[ "chunking_parameters.chunk_size";
                            "chunking_parameters.chunk_overlap_percentage" ]};
             delete_before_replace := false |} = true.
Proof.
  apply (diff_replaces_imply_changes "vdb" (ex_props "docs" ex_group)
           (ex_props "docs" ex_group_resized)).
  - vm_compute. reflexivity.
  - simpl. set_solver.
Defined.

(** ** Migration from the flat layout *)

(** C5, as the code has it.  A prior state is taken for the flat layout
    when it has no [chunking_parameters] key and has the [embedding_model]
    key.  Its flat fields are then collected and handed to the comparator
    together with the new nested group; with the same value under each of
    the seven keys and the same name, the comparator reports nothing and
    [diff] returns no change. *)
Theorem diff_flat_migration (id : string) (old_props new_props : gmap string pyval)
    (new_cp : gmap string atom) :
  old_props !! "chunking_parameters" = None →
  is_Some (old_props !! "embedding_model") →
  new_props !! "chunking_parameters" = Some (VDict new_cp) →
  (∀ key, key ∈ keys_to_compare → old_props !! key = VAtom <$> new_cp !! key) →
  py_eq (get old_props "name") (get new_props "name") = true →
  separators_ok (VAtom (aget new_cp "separators")) = true →
  diff_compare old_props new_props
  = (answer ← compare_chunking (old_flat old_props) (VDict new_cp);
     Ok (flag_fields (negb (py_eq (get old_props "name") (get new_props "name")))
                     answer))
  ∧ compare_chunking (old_flat old_props) (VDict new_cp) = Ok (false, [])
  ∧ diff id old_props new_props = Ok no_change.
Proof.
  intros Hold Hmodel Hnew Hsame Hname Hsep.
  assert (compare_chunking (old_flat old_props) (VDict new_cp) = Ok (false, []))
    as Hcmp.
  { unfold compare_chunking.
    assert (negb (has (old_flat old_props) "custom_chunking")
            && bool_decide (aget new_cp "custom_chunking" = ABool false) = false)
      as ->.
    { unfold has, aget. rewrite old_flat_lookup. simpl.
      rewrite (Hsame "custom_chunking") by compute_done.
      by destruct (new_cp !! "custom_chunking"). }
    apply chunking_params_diff_agree. intros key Hkey.
    assert (get (old_flat old_props) key = get (lift new_cp) key) as ->.
    { unfold get, lift. rewrite old_flat_lookup, lookup_fmap.
      rewrite bool_decide_eq_true_2 by done. by rewrite Hsame. }
    apply key_changed_same. intros ->. by rewrite get_lift. }
  pose proof (diff_compare_flat _ _ _ Hold Hmodel Hnew) as Hflat.
  split_and!; [done|done|].
  apply diff_of_unflagged. rewrite Hflat, Hcmp. simpl. by rewrite Hname.
Qed.

Lemma diff_flat_migration_witness :
  diff_compare ex_flat_state (ex_props "docs" ex_group)
  = (answer ← compare_chunking (old_flat ex_flat_state) (VDict ex_group);
     Ok (flag_fields
           (negb (py_eq (get ex_flat_state "name")
                        (get (ex_props "docs" ex_group) "name")))
           answer))
  ∧ compare_chunking (old_flat ex_flat_state) (VDict ex_group) = Ok (false, [])
  ∧ diff "vdb-1" ex_flat_state (ex_props "docs" ex_group) = Ok no_change.
Proof.
  apply (diff_flat_migration "vdb-1" ex_flat_state (ex_props "docs" ex_group)
           ex_group); try (vm_compute; reflexivity).
  - exists (VAtom (AStr "jinaai/jina-embedding-t-en-v1")). vm_compute. reflexivity.
  - intros key Hkey. unfold keys_to_compare in Hkey.
    repeat (apply elem_of_cons in Hkey as [->|Hkey]; [vm_compute; reflexivity|]).
    by apply elem_of_nil in Hkey.
Defined.

(** A flat state that has a flat chunking field but no [embedding_model] is
    not taken for the flat layout: its fields are not compared, although the
    comparator would report the chunk size. *)
Lemma diff_flat_without_model_not_compared :
  ex_flat_no_model !! "chunking_parameters" = None
  ∧ is_Some (ex_flat_no_model !! "chunk_size")
  ∧ compare_chunking (old_flat ex_flat_no_model)
                     (get ex_nested_resized "chunking_parameters")
    = Ok (true, ["chunk_size"])
  ∧ diff "vdb-1" ex_flat_no_model ex_nested_resized = Ok no_change.
Proof.
  split_and!; [done| |vm_compute; reflexivity|vm_compute; reflexivity].
  exists (VAtom (AInt 100)). vm_compute. reflexivity.
Qed.

(** ** The state codec *)

Lemma declared_keys_dict (d : gmap string atom) (key : string) :
  key ∈ declared_keys (VDict d) ↔ key ∈ dom d.
Proof.
  unfold declared_keys. simpl. rewrite elem_of_dom, list_elem_of_fmap. split.
  - intros [[k v] [-> Hkv%elem_of_map_to_list]]. by exists v.
  - intros [v Hv]. exists (key, v). split; [done|]. by apply elem_of_map_to_list.
Qed.

Lemma nested_step_dom (vdb : VectorDatabase) (acc : gmap string atom)
    (key k : string) :
  k ∈ dom (nested_step vdb acc key) → k ∈ dom acc ∨ k = key.
Proof.
  unfold nested_step.
  destruct (bool_decide (key = "custom_chunking")
            && negb (atom_truthy (vdb_custom_chunking vdb))) eqn:Hcc.
  - apply andb_true_iff in Hcc as [_ Hfalsy%negb_true_iff]. rewrite Hfalsy. by left.
  - repeat case_bool_decide; try destruct (vdb_embedding_validation_id vdb);
      rewrite ?dom_insert_L; set_solver.
Qed.

(** The loop of the nested layout never writes [custom_chunking]: the round
    for that key either finds the remote value falsy, or falls through a
    chain of tests that name the other six keys only. *)
Lemma nested_step_custom_chunking (vdb : VectorDatabase) (acc : gmap string atom)
    (key : string) :
  nested_step vdb acc key !! "custom_chunking" = acc !! "custom_chunking".
Proof.
  unfold nested_step.
  destruct (bool_decide (key = "custom_chunking")
            && negb (atom_truthy (vdb_custom_chunking vdb))) eqn:Hcc.
  - apply andb_true_iff in Hcc as [_ Hfalsy%negb_true_iff]. by rewrite Hfalsy.
  - repeat case_bool_decide; try destruct (vdb_embedding_validation_id vdb);
      subst; by rewrite ?lookup_insert_ne.
Qed.

Lemma nested_loop_dom (vdb : VectorDatabase) (keys : list string)
    (acc : gmap string atom) (k : string) :
  k ∈ dom (foldl (nested_step vdb) acc keys) → k ∈ dom acc ∨ k ∈ keys.
Proof.
  revert acc. induction keys as [|key keys IH]; intros acc; simpl; [by left|].
  intros [[Hacc| ->]%nested_step_dom|Hin]%IH.
  - by left.
  - right. by left.
  - right. by right.
Qed.

Lemma nested_loop_custom_chunking (vdb : VectorDatabase) (keys : list string)
    (acc : gmap string atom) :
  foldl (nested_step vdb) acc keys !! "custom_chunking" = acc !! "custom_chunking".
Proof.
  revert acc. induction keys as [|key keys IH]; intros acc; simpl; [done|].
  by rewrite IH, nested_step_custom_chunking.
Qed.

Lemma core_dict_dom (vdb : VectorDatabase) : dom (core_dict vdb) = core_keys.
Proof. unfold core_dict, core_keys. rewrite !dom_insert_L. set_solver. Qed.

Lemma flat_dict_dom (vdb : VectorDatabase) (result : gmap string pyval) (k : string) :
  k ∈ dom (flat_dict vdb result) → k ∈ dom result ∨ k ∈ keys_to_compare.
Proof.
  unfold flat_dict, keys_to_compare.
  destruct (atom_truthy (vdb_custom_chunking vdb));
    destruct (vdb_embedding_validation_id vdb) as [v|];
    try case_bool_decide; rewrite !dom_insert_L; set_solver.
Qed.

Lemma flat_dict_fields (vdb : VectorDatabase) (result : gmap string pyval) (k : string) :
  k ∈ flat_fields → is_Some (flat_dict vdb result !! k).
Proof.
  intros Hk. apply elem_of_dom. unfold flat_dict, flat_fields in *.
  destruct (atom_truthy (vdb_custom_chunking vdb));
    destruct (vdb_embedding_validation_id vdb) as [v|];
    try case_bool_decide; rewrite !dom_insert_L; set_solver.
Qed.

Lemma observed_lookup (vdb : VectorDatabase) (props result : gmap string pyval)
    (k : string) :
  k ≠ "chunks_count" → k ≠ "execution_status" →
  observed vdb props result !! k = result !! k.
Proof.
  intros H1 H2. unfold observed.
  destruct (has props "chunks_count"), (has props "execution_status");
    by rewrite ?lookup_insert_ne.
Qed.

Lemma observed_dom (vdb : VectorDatabase) (props result : gmap string pyval)
    (k : string) :
  k ∈ dom (observed vdb props result) → k ∈ dom result ∨ k ∈ dom props.
Proof.
  unfold observed, has.
  repeat case_bool_decide; rewrite ?dom_insert_L;
    repeat match goal with H : is_Some _ |- _ => apply elem_of_dom in H end;
    set_solver.
Qed.

Lemma vdb_to_dict_nested (vdb : VectorDatabase) (props : gmap string pyval)
    (reference : pyval) (keys : list string) :
  props !! "chunking_parameters" = Some reference →
  py_iter reference = Ok keys →
  _vdb_to_dict vdb props
  = Ok (observed vdb props
          (<["chunking_parameters" := VDict (foldl (nested_step vdb) ∅ keys)]>
             (core_dict vdb))).
Proof.
  intros Href Hiter. unfold _vdb_to_dict.
  by rewrite (has_true _ _ _ Href), (get_Some _ _ _ Href), Hiter.
Qed.

Lemma vdb_to_dict_flat (vdb : VectorDatabase) (props : gmap string pyval) :
  props !! "chunking_parameters" = None →
  _vdb_to_dict vdb props = Ok (observed vdb props (flat_dict vdb (core_dict vdb))).
Proof. intros Href. unfold _vdb_to_dict. by rewrite (has_false _ _ Href). Qed.

(** Every way [_vdb_to_dict] returns. *)
Lemma vdb_to_dict_inv (vdb : VectorDatabase) (props out : gmap string pyval) :
  _vdb_to_dict vdb props = Ok out →
  (props !! "chunking_parameters" = None
   ∧ out = observed vdb props (flat_dict vdb (core_dict vdb)))
  ∨ (∃ reference keys,
       props !! "chunking_parameters" = Some reference
       ∧ py_iter reference = Ok keys
       ∧ out = observed vdb props
                 (<["chunking_parameters" := VDict (foldl (nested_step vdb) ∅ keys)]>
                    (core_dict vdb))).
Proof.
  destruct (props !! "chunking_parameters") as [reference|] eqn:Href.
  - destruct (py_iter reference) as [keys|e] eqn:Hiter.
    + rewrite (vdb_to_dict_nested _ _ _ _ Href Hiter). intros [= <-].
      right. by exists reference, keys.
    + unfold _vdb_to_dict.
      by rewrite (has_true _ _ _ Href), (get_Some _ _ _ Href), Hiter.
  - rewrite (vdb_to_dict_flat _ _ Href). intros [= <-]. by left.
Qed.

(** The flat state [ex_flat_state] is what the codec wrote for [ex_vdb]
    under a declaration without a nested group. *)
Example vdb_to_dict_flat_state :
  _vdb_to_dict ex_vdb (<["name" := VAtom (AStr "docs")]> ∅) = Ok ex_flat_state.
Proof. vm_compute. reflexivity. Qed.

(** ** [read] *)

(** C8, as the code has it.  Whatever the remote resource holds, the keys of
    the output of [read] are the four always-tracked keys, keys of the
    reference blob, and, only when the blob has no [chunking_parameters]
    key, the flat chunking fields; a nested group in the output has no key
    that the reference group did not declare; and the five flat fields
    appear in the output exactly when the blob has no [chunking_parameters]
    key. *)
Theorem read_keys_bounded (R : Remote) (id : atom) (props : gmap string pyval)
    (w w' : World) (result : ReadResult) :
  read R id props w = (Ok result, w') →
  (∀ key, key ∈ dom (read_outs result) →
     key ∈ core_keys ∨ key ∈ dom props
     ∨ (props !! "chunking_parameters" = None ∧ key ∈ keys_to_compare))
  ∧ (∀ group, read_outs result !! "chunking_parameters" = Some (VDict group) →
       ∀ key, key ∈ dom group →
         key ∈ declared_keys (get props "chunking_parameters"))
  ∧ (∀ key, key ∈ flat_fields →
       is_Some (read_outs result !! key) ↔ props !! "chunking_parameters" = None).
Proof.
  unfold read, fetch.
  destruct (VectorDatabase_get R (gets w) id) as [vdb|e]; simpl; [|done].
  destruct (_vdb_to_dict vdb props) as [out|e] eqn:Hout; simpl; [|done].
  intros [= <- _]. simpl.
  apply vdb_to_dict_inv in Hout
    as [[Href ->]|(reference & keys & Href & Hiter & ->)].
  - split_and!.
    + intros key [[Hcore|Hflat]%flat_dict_dom|Hprops]%observed_dom.
      * left. by rewrite <-(core_dict_dom vdb).
      * right. right. done.
      * right. by left.
    + intros group. rewrite observed_lookup by done. intros Hgroup.
      assert (is_Some (flat_dict vdb (core_dict vdb) !! "chunking_parameters"))
        as [Hcore|Hflat]%elem_of_dom%flat_dict_dom by (by rewrite Hgroup).
      * rewrite core_dict_dom in Hcore. unfold core_keys in Hcore. set_solver.
      * unfold keys_to_compare in Hflat. set_solver.
    + intros key Hkey. split; [done|]. intros _.
      rewrite observed_lookup.
      * by apply flat_dict_fields.
      * intros ->. unfold flat_fields in Hkey. set_solver.
      * intros ->. unfold flat_fields in Hkey. set_solver.
  - split_and!.
    + intros key [Hin|Hprops]%observed_dom; [|right; by left].
      rewrite dom_insert_L, core_dict_dom in Hin.
      apply elem_of_union in Hin as [->%elem_of_singleton|Hcore]; [|by left].
      right. left. apply elem_of_dom. by rewrite Href.
    + intros group. rewrite observed_lookup, lookup_insert_eq by done.
      intros [= <-] key [Hempty|Hkey]%nested_loop_dom.
      * by rewrite dom_empty_L in Hempty.
      * unfold declared_keys. by rewrite (get_Some _ _ _ Href), Hiter.
    + intros key Hkey. rewrite Href. split; [|done].
      rewrite observed_lookup.
      * rewrite lookup_insert_ne.
        -- intros Hcore%elem_of_dom. rewrite core_dict_dom in Hcore.
           unfold core_keys, flat_fields in *. set_solver.
        -- intros <-. unfold flat_fields in Hkey. set_solver.
      * intros ->. unfold flat_fields in Hkey. set_solver.
      * intros ->. unfold flat_fields in Hkey. set_solver.
Qed.

Lemma read_keys_bounded_witness :
  (∀ key, key ∈ dom (ex_nested_out ex_group) →
     key ∈ core_keys ∨ key ∈ dom (ex_props "docs" ex_group)
     ∨ (ex_props "docs" ex_group !! "chunking_parameters" = None
        ∧ key ∈ keys_to_compare))
  ∧ (∀ group, ex_nested_out ex_group !! "chunking_parameters" = Some (VDict group) →
       ∀ key, key ∈ dom group →
         key ∈ declared_keys (get (ex_props "docs" ex_group) "chunking_parameters"))
  ∧ (∀ key, key ∈ flat_fields →
       is_Some (ex_nested_out ex_group !! key)
       ↔ ex_props "docs" ex_group !! "chunking_parameters" = None).
Proof.
  apply (read_keys_bounded (constant_remote ex_vdb_custom) (AStr "vdb-1")
           (ex_props "docs" ex_group) w0 {| now := 0; gets := 1 |}
           {| read_id_ := AStr "vdb-1"; read_outs := ex_nested_out ex_group |}).
  vm_compute. reflexivity.
Defined.

(** A flat blob written while the remote value of [custom_chunking] was
    false, read back once it is true: the output has the key
    [custom_chunking], which the blob does not have. *)
Lemma read_adds_custom_chunking :
  read (constant_remote ex_vdb_custom) (AStr "vdb-1") ex_flat_state w0
  = (Ok {| read_id_ := AStr "vdb-1"; read_outs := ex_flat_out_custom |},
     {| now := 0; gets := 1 |})
  ∧ is_Some (ex_flat_out_custom !! "custom_chunking")
  ∧ ex_flat_state !! "custom_chunking" = None.
Proof.
  split_and!; [vm_compute; reflexivity| |vm_compute; reflexivity].
  exists PTrue. vm_compute. reflexivity.
Qed.

(** ** The nested layout and [custom_chunking] *)

(** In the nested layout the group written by the codec never has the key
    [custom_chunking], whatever the reference group and the remote value. *)
Lemma vdb_to_dict_nested_no_custom_chunking (vdb : VectorDatabase)
    (props out : gmap string pyval) (group : gmap string atom) :
  _vdb_to_dict vdb props = Ok out →
  out !! "chunking_parameters" = Some (VDict group) →
  group !! "custom_chunking" = None.
Proof.
  intros [[Href ->]|(reference & keys & Href & Hiter & ->)]%vdb_to_dict_inv.
  - rewrite observed_lookup by done. intros Hgroup.
    assert (is_Some (flat_dict vdb (core_dict vdb) !! "chunking_parameters"))
      as [Hcore|Hflat]%elem_of_dom%flat_dict_dom by (by rewrite Hgroup).
    + rewrite core_dict_dom in Hcore. unfold core_keys in Hcore. set_solver.
    + unfold keys_to_compare in Hflat. set_solver.
  - rewrite observed_lookup, lookup_insert_eq by done. intros [= <-].
    by rewrite nested_loop_custom_chunking.
Qed.

(** The keys of the nested layout other than [custom_chunking] are filled
    from the remote fields. *)
Example vdb_to_dict_nested_filled :
  _vdb_to_dict ex_vdb (ex_props "renamed" {["chunk_size" := AInt 1]})
  = Ok (ex_nested_out {["chunk_size" := AInt 256]}).
Proof. vm_compute. reflexivity. Qed.

(** C9 at a failing input.  The reference group declares [custom_chunking]
    and the remote value is true; the group written by the codec has the
    other declared keys and no [custom_chunking]. *)
Theorem vdb_to_dict_drops_custom_chunking :
  _vdb_to_dict ex_vdb_custom
    (ex_props "docs" (<["custom_chunking" := ABool true]> ex_group))
  = Ok (ex_nested_out ex_group)
  ∧ ex_group !! "custom_chunking" = None
  ∧ atom_truthy (vdb_custom_chunking ex_vdb_custom) = true.
Proof. split_and!; vm_compute; reflexivity. Qed.

(** ** The polling loop *)

Section polling.

Context (R : Remote) (timeout_seconds : atom) (start_time : Z).

Lemma wait_loop_done (fuel : nat) (vdb : VectorDatabase) (w : World) :
  is_terminal (vdb_execution_status vdb) = true →
  wait_loop fuel R timeout_seconds start_time vdb w = Some (Ok vdb, w).
Proof. intros H. destruct fuel; simpl; by rewrite H. Qed.


(** The status [FAILED] seen in a fetch ends the loop with the remote
    error message. *)
Lemma wait_loop_failed (fuel : nat) (limit : Z) (text : string)
    (vdb vdb' : VectorDatabase) (w : World) :
  is_terminal (vdb_execution_status vdb) = false →
  as_number timeout_seconds = Ok (limit, text) →
  (now w - start_time ≤ limit)%Z →
  VectorDatabase_get R (gets w) (vdb_id vdb) = Ok vdb' →
  atom_eq (vdb_execution_status vdb') (AStr "FAILED") = true →
  wait_loop (S fuel) R timeout_seconds start_time vdb w
  = Some (Raise (PyException (failure_message (vdb_error_message vdb'))), tick w).
Proof.
  intros Hrun Hnum Hle Hget Hfailed. simpl. rewrite Hrun, Hnum.
  rewrite bool_decide_eq_false_2 by lia.
  unfold fetch, sleep. simpl. by rewrite Hget, Hfailed.
Qed.


Lemma rounds_step (limit elapsed : Z) :
  (elapsed ≤ limit)%Z → rounds limit elapsed = S (rounds limit (elapsed + 5)).
Proof.
  intros Hle. unfold rounds.
  rewrite decide_False by lia. f_equal.
  destruct (decide (limit < elapsed + 5)%Z) as [Hlt|Hge].
  - rewrite Z.div_small by lia. done.
  - replace (limit - elapsed)%Z with (limit - (elapsed + 5) + 1 * 5)%Z by lia.
    rewrite Z.div_add by lia.
    assert (0 ≤ (limit - (elapsed + 5)) / 5)%Z by (apply Z.div_pos; lia).
    lia.
Qed.


(** The loop returns: with a numeric timeout, fuel beyond the number of
    rounds is never used up; a timeout that is no number fails the first
    check. *)
Lemma wait_loop_total (fuel : nat) (vdb : VectorDatabase) (w : World) :
  (enough_fuel timeout_seconds (now w - start_time) ≤ fuel)%nat →
  is_Some (wait_loop fuel R timeout_seconds start_time vdb w).
Proof.
  unfold enough_fuel. revert vdb w.
  induction fuel as [|fuel IH]; intros vdb w Hfuel.
  { destruct (as_number timeout_seconds) as [[? ?]|]; lia. }
  simpl. destruct (is_terminal (vdb_execution_status vdb)); [done|].
  destruct (as_number timeout_seconds) as [[limit text]|e]; [|done].
  case_bool_decide as Hlt; [done|].
  unfold fetch, sleep. simpl.
  destruct (VectorDatabase_get R (gets w) (vdb_id vdb)) as [vdb'|e]; [|done].
  destruct (atom_eq (vdb_execution_status vdb') (AStr "FAILED")); [done|].
  apply IH. simpl.
  rewrite (rounds_step limit (now w - start_time)) in Hfuel by lia.
  replace (now w + 5 - start_time)%Z with (now w - start_time + 5)%Z by lia.
  lia.
Qed.


End polling.

(** ** [create] *)

Section creating.

Context (R : Remote) (props : gmap string pyval).
Context (wait_for_completion timeout_seconds : atom).
Context (args : CreateArgs) (vdb0 : VectorDatabase).
Hypothesis Hoptions :
  create_options props = Ok (wait_for_completion, timeout_seconds).
Hypothesis Hargs : create_args props = Ok args.
Hypothesis Hcreate : VectorDatabase_create R args = Ok vdb0.

Lemma create_waiting (fuel : nat) (w : World) :
  atom_truthy wait_for_completion = true →
  create fuel R props w
  = ('(r, w') ← wait_loop fuel R timeout_seconds (now w) vdb0 w;
     Some (r ≫= λ vdb, created vdb props, w')).
Proof.
  intros Hwait. unfold create. rewrite Hoptions, Hargs. simpl.
  rewrite Hcreate, Hwait. done.
Qed.

Lemma create_not_waiting (fuel : nat) (w : World) :
  atom_truthy wait_for_completion = false →
  create fuel R props w = Some (created vdb0 props, w).
Proof.
  intros Hwait. unfold create. rewrite Hoptions, Hargs. simpl.
  rewrite Hcreate, Hwait. done.
Qed.

(** With the fuel of [enough_fuel], [create] returns: a result or an
    exception, never fuel run out. *)
Lemma create_total (fuel : nat) (w : World) :
  (enough_fuel timeout_seconds 0 ≤ fuel)%nat →
  is_Some (create fuel R props w).
Proof.
  intros Hfuel.
  destruct (atom_truthy wait_for_completion) eqn:Hwait.
  - rewrite create_waiting by done.
    destruct (wait_loop_total R timeout_seconds (now w) fuel vdb0 w)
      as [[r w'] ->]; [|done].
    by replace (now w - now w)%Z with 0%Z by lia.
  - by rewrite create_not_waiting.
Qed.

(** A creation call that already answers [FAILED] is not polled: the loop
    is not entered and the resource is returned as created. *)
Lemma create_initial_failed (fuel : nat) (w : World) :
  vdb_execution_status vdb0 = AStr "FAILED" →
  atom_truthy wait_for_completion = true →
  create fuel R props w = Some (created vdb0 props, w).
Proof.
  intros Hfailed Hwait. rewrite create_waiting by done.
  rewrite wait_loop_done; [done|]. by rewrite Hfailed.
Qed.


End creating.




(** C7 at a failing input.  The creation call answers with status [FAILED]
    and an error message; [create], waiting for completion, returns the
    resource as created, without a fetch and without an exception. *)
Theorem create_returns_failed_resource :
  vdb_execution_status (with_status "FAILED" (Some "embedding model unavailable") ex_vdb)
  = AStr "FAILED"
  ∧ create_options (ex_props "docs" ex_group) = Ok (ABool true, AInt 600)
  ∧ create 1 failed_remote (ex_props "docs" ex_group) w0
    = Some (Ok {| id_ := AStr "vdb-1"; outs := ex_nested_out ex_group |}, w0).
Proof. split_and!; vm_compute; reflexivity. Qed.

(** The sibling path: the same status seen in the first fetch raises, with
    the remote error message. *)
Example create_failed_after_fetch :
  create 1 {| VectorDatabase_create := λ _, Ok (with_status "QUEUED" None ex_vdb);
              VectorDatabase_get := λ _ _,
                Ok (with_status "FAILED" (Some "embedding model unavailable") ex_vdb) |}
         (ex_props "docs" ex_group) w0
  = Some (Raise (PyException
                   "Vector database creation failed: embedding model unavailable"),
          {| now := 5; gets := 1 |}).
Proof. vm_compute. reflexivity. Qed.

(** * Further properties *)

(** ** The comparator, key by key *)

Lemma params_loop_ext (keys : list string)
    (old_params new_params old_params' new_params' : gmap string pyval)
    (changed : bool) (changed_fields : list string) :
  (∀ key, key ∈ keys → get old_params key = get old_params' key) →
  (∀ key, key ∈ keys → get new_params key = get new_params' key) →
  params_loop keys old_params new_params changed changed_fields
  = params_loop keys old_params' new_params' changed changed_fields.
Proof.
  revert changed changed_fields.
  induction keys as [|key keys IH]; intros changed changed_fields Hold Hnew;
    simpl; [done|].
  rewrite <-(Hold key), <-(Hnew key) by left.
  destruct (key_changed key _ _) as [[|]|e]; simpl; [| |done];
    apply IH; intros k Hk; (apply Hold || apply Hnew); by right.
Qed.

(** The comparator reads its two arguments through [get] at the seven
    compared keys only: other keys are ignored, and a key holding [None] is
    the same as a key that is absent. *)
Theorem comparator_reads_seven_keys
    (old_params new_params old_params' new_params' : gmap string pyval) :
  (∀ key, key ∈ keys_to_compare → get old_params key = get old_params' key) →
  (∀ key, key ∈ keys_to_compare → get new_params key = get new_params' key) →
  _chunking_params_diff old_params new_params
  = _chunking_params_diff old_params' new_params'.
Proof. apply params_loop_ext. Qed.

Lemma comparator_reads_seven_keys_witness :
  _chunking_params_diff (lift ex_group) (lift ex_group_resized)
  = _chunking_params_diff
      (<["comment" := VAtom (AStr "v1")]>
         (<["custom_chunking" := PNone]> (lift ex_group)))
      (<["embedding_validation_id" := PNone]> (lift ex_group_resized)).
Proof.
  apply comparator_reads_seven_keys; intros key Hkey;
    unfold keys_to_compare in Hkey;
    repeat (apply elem_of_cons in Hkey as [->|Hkey]; [vm_compute; reflexivity|]);
    by apply elem_of_nil in Hkey.
Defined.

Lemma params_loop_fields (keys : list string) (old_params new_params : gmap string pyval)
    (changed : bool) (changed_fields : list string) (c : bool) (fs : list string) :
  params_loop keys old_params new_params changed changed_fields = Ok (c, fs) →
  fs = (changed_fields
        ++ filter (λ key, key_flagged old_params new_params key = true) keys)%list.
Proof.
  revert changed changed_fields.
  induction keys as [|key keys IH]; intros changed changed_fields; simpl.
  - intros [= _ <-]. by rewrite app_nil_r.
  - destruct (key_changed key _ _) as [c0|e] eqn:Hkey; simpl; [|done].
    assert (key_flagged old_params new_params key = c0) as Hflag
      by (unfold key_flagged; by rewrite Hkey).
    destruct c0; intros ->%IH.
    + rewrite filter_cons_True by done. by rewrite <-app_assoc.
    + rewrite filter_cons_False; [done|]. by rewrite Hflag.
Qed.

Lemma chunking_params_diff_fields (old_params new_params : gmap string pyval)
    (c : bool) (fs : list string) :
  _chunking_params_diff old_params new_params = Ok (c, fs) →
  fs = filter (λ key, key_flagged old_params new_params key = true) keys_to_compare.
Proof. apply params_loop_fields. Qed.

(** The changed fields are exactly the compared keys the comparator flags,
    in the order of [keys_to_compare], and the flag is raised exactly when
    there is one. *)
Theorem comparator_fields (old_params new_params : gmap string pyval)
    (c : bool) (fs : list string) :
  _chunking_params_diff old_params new_params = Ok (c, fs) →
  fs = filter (λ key, key_flagged old_params new_params key = true) keys_to_compare
  ∧ c = negb (bool_decide (fs = [])).
Proof.
  intros Hdiff. split.
  - by apply params_loop_fields in Hdiff.
  - by apply chunking_params_diff_inv in Hdiff as (_ & _ & ->).
Qed.

Lemma comparator_fields_witness :
  ["chunk_size"; "chunk_overlap_percentage"]
  = filter (λ key, key_flagged (lift ex_group) (lift ex_group_resized) key = true)
           keys_to_compare
  ∧ true = negb (bool_decide (["chunk_size"; "chunk_overlap_percentage"] = [])).
Proof.
  apply (comparator_fields (lift ex_group) (lift ex_group_resized)).
  vm_compute. reflexivity.
Defined.

Lemma key_changed_not_separators (key : string) (old_value new_value : pyval) :
  key ≠ "separators" →
  ∃ c, key_changed key old_value new_value = Ok c.
Proof.
  intros Hne. unfold key_changed.
  rewrite (bool_decide_eq_false_2 (key = "separators")) by done. simpl.
  destruct (is_None old_value && is_None new_value); [by eexists|].
  destruct (bool_decide (key = "custom_chunking") && _); by eexists.
Qed.

Lemma sorted_raises (v : pyval) (e : exn) :
  sorted v = Raise e ↔ e = TypeError ∧ (is_None v = true ∨ is_number v = true).
Proof.
  unfold sorted, is_number.
  destruct v as [[| | | |]|]; simpl; split; try done;
    try (intros [= <-]; split; [done|]; by (left + right));
    try (by intros [-> _]); by intros [_ [?|?]].
Qed.

Lemma key_changed_separators (old_value new_value : pyval) (e : exn) :
  key_changed "separators" old_value new_value = Raise e
  ↔ e = TypeError
    ∧ is_None old_value = false ∧ is_None new_value = false
    ∧ (is_number old_value = true ∨ is_number new_value = true).
Proof.
  unfold key_changed. simpl.
  destruct (is_None old_value) eqn:Hold; simpl.
  { destruct (is_None new_value); simpl; split; try done; by intros (_ & ? & _). }
  destruct (is_None new_value) eqn:Hnew; simpl.
  { split; [done|]. by intros (_ & _ & ? & _). }
  destruct (sorted old_value) as [so|eo] eqn:Hso; simpl.
  - assert (is_number old_value = false) as Hnum.
    { destruct (is_number old_value) eqn:Hn; [|done].
      assert (sorted old_value = Raise TypeError) as Hr
        by (apply sorted_raises; split; [done|by right]).
      congruence. }
    destruct (sorted new_value) as [sn|en] eqn:Hsn; simpl.
    + split; [done|]. intros (_ & _ & _ & [Hn|Hn]); [congruence|].
      assert (sorted new_value = Raise TypeError) as Hr
        by (apply sorted_raises; split; [done|by right]).
      congruence.
    + apply sorted_raises in Hsn as [-> [Hn|Hn]]; [congruence|].
      split; [by intros [= <-]; split_and!; try done; right|by intros [-> _]].
  - apply sorted_raises in Hso as [-> [Hn|Hn]]; [congruence|].
    split; [by intros [= <-]; split_and!; try done; left|by intros [-> _]].
Qed.

Lemma params_loop_raises (keys : list string) (old_params new_params : gmap string pyval)
    (changed : bool) (changed_fields : list string) (e : exn) :
  params_loop keys old_params new_params changed changed_fields = Raise e
  ↔ "separators" ∈ keys
    ∧ key_changed "separators" (get old_params "separators")
                  (get new_params "separators") = Raise e.
Proof.
  revert changed changed_fields.
  induction keys as [|key keys IH]; intros changed changed_fields; simpl.
  - split; [done|]. intros [Hin _]. by apply elem_of_nil in Hin.
  - destruct (decide (key = "separators")) as [->|Hne].
    + destruct (key_changed "separators" _ _) as [c|e'] eqn:Hsep; simpl.
      * split; [|by intros [_ ?]].
        destruct c; by intros [_ ?]%IH.
      * split; [intros [= ->]; split; [left|done]|by intros [_ [= ->]]].
    + destruct (key_changed_not_separators key (get old_params key)
                  (get new_params key) Hne) as [c ->]. simpl.
      assert ("separators" ∈ key :: keys ↔ "separators" ∈ keys) as ->.
      { rewrite elem_of_cons. naive_solver. }
      destruct c; apply IH.
Qed.

Lemma chunking_params_diff_raises (old_params new_params : gmap string pyval)
    (e : exn) :
  _chunking_params_diff old_params new_params = Raise e
  ↔ e = TypeError
    ∧ is_None (get old_params "separators") = false
    ∧ is_None (get new_params "separators") = false
    ∧ (is_number (get old_params "separators") = true
       ∨ is_number (get new_params "separators") = true).
Proof.
  unfold _chunking_params_diff. rewrite params_loop_raises, key_changed_separators.
  split; [by intros [_ ?]|]. intros H. split; [|done]. compute_done.
Qed.

(** The comparator raises exactly when both sides have separators other
    than [None] and one of them is a number, which [sorted] cannot iterate;
    the exception is a [TypeError]. *)
Theorem comparator_raises (old_params new_params : gmap string pyval) (e : exn) :
  _chunking_params_diff old_params new_params = Raise e
  ↔ e = TypeError
    ∧ is_None (get old_params "separators") = false
    ∧ is_None (get new_params "separators") = false
    ∧ (is_number (get old_params "separators") = true
       ∨ is_number (get new_params "separators") = true).
Proof. apply chunking_params_diff_raises. Qed.

Example comparator_raises_on_number :
  _chunking_params_diff (lift ex_group)
                        (<["separators" := VAtom (AInt 3)]> (lift ex_group))
  = Raise TypeError.
Proof. vm_compute. reflexivity. Qed.

(** ** What [diff] looks at *)

(** A change of any key other than [name] and [chunking_parameters] (the
    dataset, the use case) is not reported: two property bags with the same
    name and the same nested group give no change. *)
Theorem diff_ignores_other_keys (id : string)
    (old_props new_props : gmap string pyval) :
  old_props !! "name" = new_props !! "name" →
  old_props !! "chunking_parameters" = new_props !! "chunking_parameters" →
  well_formed old_props = true →
  diff id old_props new_props = Ok no_change.
Proof.
  intros Hname Hgroup Hwf. apply diff_of_unflagged.
  assert (py_eq (get old_props "name") (get new_props "name") = true) as Heq.
  { unfold get. rewrite Hname. apply py_eq_refl. }
  unfold well_formed in Hwf.
  destruct (old_props !! "chunking_parameters") as [[a|cp]|] eqn:Hold; [done| |].
  - rewrite (diff_compare_nested _ _ cp (VDict cp)) by done.
    rewrite compare_chunking_same by done. simpl. by rewrite Heq.
  - rewrite diff_compare_undeclared by done. by rewrite Heq.
Qed.

Lemma diff_ignores_other_keys_witness :
  diff "vdb-1" (ex_props "docs" ex_group)
    (<["dataset_id" := VAtom (AStr "ds-2")]>
       (<["use_case_id" := VAtom (AStr "uc-9")]> (ex_props "docs" ex_group)))
  = Ok no_change.
Proof. apply diff_ignores_other_keys; vm_compute; reflexivity. Defined.

(** A change of name is reported whatever else differs. *)
Theorem diff_name_change_reported (id : string)
    (old_props new_props : gmap string pyval) (r : DiffResult) :
  diff id old_props new_props = Ok r →
  py_eq (get old_props "name") (get new_props "name") = false →
  changes r = true.
Proof.
  unfold diff.
  destruct (diff_compare old_props new_props) as [[changed flagged]|e] eqn:Hcmp;
    simpl; [|done].
  intros [= <-] Hname. simpl.
  destruct (diff_compare_inv _ _ _ _ Hcmp) as (fields & _ & _ & _ & ->).
  by rewrite Hname.
Qed.

Lemma diff_name_change_reported_witness :
  changes {| changes := true; replaces := whole_group;
             delete_before_replace := false |} = true.
Proof.
  apply (diff_name_change_reported "vdb-1" (ex_props "docs" ex_group)
           (ex_props "docs-v2" ex_group_rechunked));
    vm_compute; reflexivity.
Defined.

Lemma chunking_params_diff_ok (old_params new_params : gmap string pyval) :
  separators_ok (get old_params "separators") = true →
  separators_ok (get new_params "separators") = true →
  ∃ c fs, _chunking_params_diff old_params new_params = Ok (c, fs).
Proof.
  intros Hold Hnew.
  destruct (_chunking_params_diff old_params new_params) as [[c fs]|e] eqn:Hdiff;
    [by eauto|].
  apply chunking_params_diff_raises in Hdiff.
  unfold is_number in Hdiff. rewrite Hold, Hnew in Hdiff.
  by destruct Hdiff as (_ & _ & _ & [?|?]).
Qed.

Lemma get_old_flat (old_props : gmap string pyval) (key : string) :
  key ∈ keys_to_compare → get (old_flat old_props) key = get old_props key.
Proof.
  intros Hkey. unfold get. rewrite old_flat_lookup.
  by rewrite bool_decide_eq_true_2.
Qed.

Lemma compare_chunking_ok (old_cp : gmap string pyval) (n : gmap string atom) :
  separators_ok (get old_cp "separators") = true →
  separators_ok (VAtom (aget n "separators")) = true →
  ∃ c fs, compare_chunking old_cp (VDict n) = Ok (c, fs).
Proof.
  intros Hold Hnew. unfold compare_chunking.
  destruct (_ && _); apply chunking_params_diff_ok; try done;
    rewrite get_lift; [|done].
  unfold aget in *. by rewrite lookup_delete_ne.
Qed.

(** On well-typed input [diff] returns a decision: when each nested group
    that is declared is a dictionary, and the separators on either side
    (nested, or flat on the old side) are [None] or can be sorted. *)
Theorem diff_returns_when_well_typed (id : string)
    (old_props new_props : gmap string pyval) :
  well_formed old_props = true →
  well_formed new_props = true →
  separators_ok (get old_props "separators") = true →
  ∃ r, diff id old_props new_props = Ok r.
Proof.
  intros Hold Hnew Hflat.
  assert (∃ changed flagged,
            diff_compare old_props new_props = Ok (changed, flagged))
    as (changed & flagged & Hcmp).
  { unfold well_formed in *.
    destruct (new_props !! "chunking_parameters") as [[b|n]|] eqn:Hn; [done| |].
    - destruct (old_props !! "chunking_parameters") as [[a|o]|] eqn:Ho; [done| |].
      + rewrite (diff_compare_nested _ _ o (VDict n)) by done.
        destruct (compare_chunking_ok (lift o) n) as (c & fs & ->);
          [by rewrite get_lift|done|]. destruct c; simpl; by eauto.
      + destruct (old_props !! "embedding_model") as [v|] eqn:Hmodel.
        * rewrite (diff_compare_flat _ _ (VDict n)) by done.
          destruct (compare_chunking_ok (old_flat old_props) n) as (c & fs & ->);
            [by rewrite get_old_flat by compute_done|done|].
          destruct c; simpl; by eauto.
        * unfold diff_compare.
          rewrite (has_false _ _ Ho), (has_false _ _ Hmodel), !andb_false_r.
          by eauto.
    - rewrite diff_compare_undeclared by done. by eauto. }
  unfold diff. rewrite Hcmp. simpl. by eauto.
Qed.

Lemma diff_returns_when_well_typed_witness :
  ∃ r, diff "vdb-1" ex_flat_state (ex_props "docs" ex_group_rechunked) = Ok r.
Proof. apply diff_returns_when_well_typed; vm_compute; reflexivity. Defined.

(** When both sides declare a nested group and one of the two is no
    dictionary, [diff] raises. *)
Theorem diff_group_not_dict_raises (id : string)
    (old_props new_props : gmap string pyval) (old_cp new_cp : pyval) :
  old_props !! "chunking_parameters" = Some old_cp →
  new_props !! "chunking_parameters" = Some new_cp →
  (∃ a, old_cp = VAtom a) ∨ (∃ a, new_cp = VAtom a) →
  ∃ e, diff id old_props new_props = Raise e
       ∧ (e = TypeError ∨ e = AttributeError).
Proof.
  intros Hold Hnew Hatom. unfold diff, diff_compare.
  rewrite (has_true _ _ _ Hold), (has_true _ _ _ Hnew),
          (get_Some _ _ _ Hold), (get_Some _ _ _ Hnew). simpl.
  destruct old_cp as [[| | | |]|o]; simpl; try by eauto.
  destruct Hatom as [[a [=]]|[a ->]]. simpl. by eauto.
Qed.

Lemma diff_group_not_dict_raises_witness :
  ∃ e, diff "vdb-1"
         (<["chunking_parameters" := PNone]> (ex_props "docs" ex_group))
         (ex_props "docs" ex_group)
       = Raise e
       ∧ (e = TypeError ∨ e = AttributeError).
Proof.
  apply (diff_group_not_dict_raises _ _ _ PNone (VDict ex_group));
    [vm_compute; reflexivity|vm_compute; reflexivity|].
  left. by exists ANone.
Defined.

(** The chunking fields are compared only when the new side declares a
    nested group and the old side has a nested group or the flat
    [embedding_model]: a group that was removed from the declaration, or
    added to a state that has neither, leaves [replaces] empty and
    [changes] to the names. *)
Theorem diff_group_not_compared (id : string)
    (old_props new_props : gmap string pyval) :
  new_props !! "chunking_parameters" = None
  ∨ (old_props !! "chunking_parameters" = None
     ∧ old_props !! "embedding_model" = None) →
  diff id old_props new_props
  = Ok {| changes := negb (py_eq (get old_props "name") (get new_props "name"));
          replaces := ∅;
          delete_before_replace := false |}.
Proof.
  intros Hcase. apply diff_of_unflagged. unfold diff_compare.
  destruct Hcase as [Hnew|[Hold Hmodel]].
  - by rewrite (has_false _ _ Hnew).
  - by rewrite (has_false _ _ Hold), (has_false _ _ Hmodel), !andb_false_r.
Qed.

Lemma diff_group_not_compared_witness :
  diff "vdb-1" (ex_props "docs" ex_group)
       (delete "chunking_parameters" (ex_props "docs" ex_group))
  = Ok {| changes :=
            negb (py_eq (get (ex_props "docs" ex_group) "name")
                        (get (delete "chunking_parameters"
                                     (ex_props "docs" ex_group)) "name"));
          replaces := ∅;
          delete_before_replace := false |}.
Proof. apply diff_group_not_compared. left. vm_compute. reflexivity. Defined.

(** [replaces] never has more than three entries, and each is the marker
    [chunking_parameters] or the prefixed name of a compared key. *)
Theorem diff_replaces_bounded (id : string)
    (old_props new_props : gmap string pyval) (r : DiffResult) :
  diff id old_props new_props = Ok r →
  (size (replaces r) ≤ 3)%nat
  ∧ ∀ x, x ∈ replaces r →
      x = "chunking_parameters"
      ∨ ∃ key, key ∈ keys_to_compare ∧ x = prefixed key.
Proof.
  unfold diff.
  destruct (diff_compare old_props new_props) as [[changed flagged]|e] eqn:Hcmp;
    simpl; [|done].
  intros [= <-]. simpl.
  destruct (diff_compare_inv _ _ _ _ Hcmp) as (fields & Hsub & Hnd & -> & _).
  unfold collapse. case_bool_decide as Hsize.
  - split; [by rewrite size_singleton; lia|].
    intros x ->%elem_of_singleton. by left.
  - split; [lia|]. intros x Hx. right.
    apply elem_of_list_to_set, list_elem_of_fmap in Hx as (key & -> & Hkey).
    exists key. split; [|done]. by eapply elem_of_sublist.
Qed.

Lemma diff_replaces_bounded_witness :
  (size whole_group ≤ 3)%nat
  ∧ ∀ x, x ∈ whole_group →
      x = "chunking_parameters"
      ∨ ∃ key, key ∈ keys_to_compare ∧ x = prefixed key.
Proof.
  apply (diff_replaces_bounded "vdb-1" (ex_props "docs" ex_group)
           (ex_props "docs" ex_group_rechunked)
           {| changes := true; replaces := whole_group;
              delete_before_replace := false |}).
  vm_compute. reflexivity.
Defined.

(** ** The codec, key by key *)

Lemma flat_dict_lookup_other (vdb : VectorDatabase) (result : gmap string pyval)
    (k : string) :
  k ∉ keys_to_compare → flat_dict vdb result !! k = result !! k.
Proof.
  intros Hk. unfold flat_dict.
  destruct (atom_truthy (vdb_custom_chunking vdb));
    destruct (vdb_embedding_validation_id vdb) as [v|];
    try case_bool_decide;
    rewrite ?lookup_insert_ne; try done;
    intros <-; apply Hk; compute_done.
Qed.

Lemma core_dict_lookup (vdb : VectorDatabase) :
  core_dict vdb !! "id" = Some (VAtom (vdb_id vdb))
  ∧ core_dict vdb !! "name" = Some (VAtom (vdb_name vdb))
  ∧ core_dict vdb !! "use_case_id" = Some (VAtom (vdb_use_case_id vdb))
  ∧ core_dict vdb !! "dataset_id" = Some (VAtom (vdb_dataset_id vdb)).
Proof. unfold core_dict. split_and!; by simplify_map_eq. Qed.

Lemma core_dict_lookup_other (vdb : VectorDatabase) (k : string) :
  k ∉ core_keys → core_dict vdb !! k = None.
Proof. intros Hk. apply not_elem_of_dom. by rewrite core_dict_dom. Qed.

Lemma vdb_to_dict_core_lookup (vdb : VectorDatabase)
    (props out : gmap string pyval) :
  _vdb_to_dict vdb props = Ok out →
  out !! "id" = Some (VAtom (vdb_id vdb))
  ∧ out !! "name" = Some (VAtom (vdb_name vdb))
  ∧ out !! "use_case_id" = Some (VAtom (vdb_use_case_id vdb))
  ∧ out !! "dataset_id" = Some (VAtom (vdb_dataset_id vdb)).
Proof.
  destruct (core_dict_lookup vdb) as (Hid & Hname & Huc & Hds).
  intros [[Href ->]|(reference & keys & Href & Hiter & ->)]%vdb_to_dict_inv.
  - rewrite !observed_lookup by done.
    rewrite !flat_dict_lookup_other by compute_done. done.
  - rewrite !observed_lookup by done.
    rewrite !lookup_insert_ne by done. done.
Qed.

(** The four always-tracked keys are in every output, with the remote
    values, whatever the reference holds under them. *)
Theorem vdb_to_dict_core (vdb : VectorDatabase) (props out : gmap string pyval) :
  _vdb_to_dict vdb props = Ok out →
  out !! "id" = Some (VAtom (vdb_id vdb))
  ∧ out !! "name" = Some (VAtom (vdb_name vdb))
  ∧ out !! "use_case_id" = Some (VAtom (vdb_use_case_id vdb))
  ∧ out !! "dataset_id" = Some (VAtom (vdb_dataset_id vdb)).
Proof. apply vdb_to_dict_core_lookup. Qed.

Lemma vdb_to_dict_core_witness :
  ex_nested_out ex_group !! "id" = Some (VAtom (vdb_id ex_vdb_custom))
  ∧ ex_nested_out ex_group !! "name" = Some (VAtom (vdb_name ex_vdb_custom))
  ∧ ex_nested_out ex_group !! "use_case_id"
    = Some (VAtom (vdb_use_case_id ex_vdb_custom))
  ∧ ex_nested_out ex_group !! "dataset_id"
    = Some (VAtom (vdb_dataset_id ex_vdb_custom)).
Proof.
  apply (vdb_to_dict_core ex_vdb_custom (ex_props "another name" ex_group)).
  vm_compute. reflexivity.
Defined.

Lemma observed_fields (vdb : VectorDatabase) (props result : gmap string pyval) :
  result !! "chunks_count" = None →
  result !! "execution_status" = None →
  observed vdb props result !! "chunks_count"
  = (if has props "chunks_count"
     then Some (VAtom (vdb_chunks_count vdb)) else None)
  ∧ observed vdb props result !! "execution_status"
    = (if has props "execution_status"
       then Some (VAtom (vdb_execution_status vdb)) else None).
Proof.
  intros Hcount Hstatus. unfold observed.
  destruct (has props "chunks_count"), (has props "execution_status");
    by simplify_map_eq.
Qed.

Lemma layouts_not_observed (vdb : VectorDatabase) (group : gmap string atom)
    (k : string) :
  k = "chunks_count" ∨ k = "execution_status" →
  flat_dict vdb (core_dict vdb) !! k = None
  ∧ <["chunking_parameters" := VDict group]> (core_dict vdb) !! k = None.
Proof.
  intros Hk. split.
  - rewrite flat_dict_lookup_other by (destruct Hk as [-> | ->]; compute_done).
    apply core_dict_lookup_other. destruct Hk as [-> | ->]; compute_done.
  - rewrite lookup_insert_ne by (destruct Hk as [-> | ->]; done).
    apply core_dict_lookup_other. destruct Hk as [-> | ->]; compute_done.
Qed.

(** The observed fields [chunks_count] and [execution_status] are in the
    output exactly when the reference has the key, and then with the remote
    value. *)
Theorem vdb_to_dict_observed (vdb : VectorDatabase) (props out : gmap string pyval) :
  _vdb_to_dict vdb props = Ok out →
  out !! "chunks_count"
  = (if has props "chunks_count"
     then Some (VAtom (vdb_chunks_count vdb)) else None)
  ∧ out !! "execution_status"
    = (if has props "execution_status"
       then Some (VAtom (vdb_execution_status vdb)) else None).
Proof.
  intros [[Href ->]|(reference & keys & Href & Hiter & ->)]%vdb_to_dict_inv;
    apply observed_fields;
    by apply (layouts_not_observed vdb ∅); (left + right).
Qed.

Lemma vdb_to_dict_observed_witness :
  <["execution_status" := VAtom (AStr "COMPLETED")]> ex_flat_state !! "chunks_count"
  = (if has (<["execution_status" := VAtom (AStr "QUEUED")]> ∅ : gmap string pyval)
            "chunks_count"
     then Some (VAtom (vdb_chunks_count ex_vdb)) else None)
  ∧ <["execution_status" := VAtom (AStr "COMPLETED")]> ex_flat_state
      !! "execution_status"
    = (if has (<["execution_status" := VAtom (AStr "QUEUED")]> ∅ : gmap string pyval)
              "execution_status"
       then Some (VAtom (vdb_execution_status ex_vdb)) else None).
Proof.
  apply (vdb_to_dict_observed ex_vdb
           (<["execution_status" := VAtom (AStr "QUEUED")]> ∅)).
  vm_compute. reflexivity.
Defined.

Lemma nested_step_spec (vdb : VectorDatabase) (acc : gmap string atom)
    (key : string) :
  nested_step vdb acc key
  = match remote_field vdb key with
    | Some v => <[key := v]> acc
    | None => acc
    end.
Proof.
  unfold nested_step, remote_field.
  destruct (decide (key = "custom_chunking")) as [->|Hne].
  - simpl. by destruct (atom_truthy (vdb_custom_chunking vdb)).
  - rewrite (bool_decide_eq_false_2 (key = "custom_chunking")) by done. simpl.
    repeat case_bool_decide; try done.
Qed.

Lemma nested_loop_lookup (vdb : VectorDatabase) (keys : list string)
    (acc : gmap string atom) (k : string) :
  foldl (nested_step vdb) acc keys !! k
  = if bool_decide (k ∈ keys)
    then match remote_field vdb k with Some v => Some v | None => acc !! k end
    else acc !! k.
Proof.
  revert acc. induction keys as [|key keys IH]; intros acc; simpl; [done|].
  rewrite IH, nested_step_spec.
  destruct (decide (k = key)) as [->|Hne].
  - rewrite (bool_decide_eq_true_2 (key ∈ key :: keys)) by left.
    destruct (remote_field vdb key) as [v|] eqn:Hfield.
    + rewrite lookup_insert_eq. by case_bool_decide.
    + by case_bool_decide.
  - assert (bool_decide (k ∈ key :: keys) = bool_decide (k ∈ keys)) as ->.
    { apply bool_decide_ext. rewrite elem_of_cons. naive_solver. }
    destruct (remote_field vdb key) as [v|]; [|done].
    by rewrite lookup_insert_ne.
Qed.

Lemma nested_group_lookup (vdb : VectorDatabase) (keys : list string) (k : string) :
  foldl (nested_step vdb) ∅ keys !! k
  = if bool_decide (k ∈ keys) then remote_field vdb k else None.
Proof.
  rewrite nested_loop_lookup, lookup_empty.
  case_bool_decide; [|done]. by destruct (remote_field vdb k).
Qed.

(** The nested layout: the group of the output has, for each key the
    reference group declares, the remote field of that name when there is
    one ([embedding_model], [chunking_method], [chunk_size],
    [chunk_overlap_percentage], [separators], and
    [embedding_validation_id] when the handle has the attribute), and
    nothing else. *)
Theorem vdb_to_dict_nested_group (vdb : VectorDatabase)
    (props : gmap string pyval) (reference : pyval) (keys : list string) :
  props !! "chunking_parameters" = Some reference →
  py_iter reference = Ok keys →
  ∃ out group,
    _vdb_to_dict vdb props = Ok out
    ∧ out !! "chunking_parameters" = Some (VDict group)
    ∧ ∀ k, group !! k
           = if bool_decide (k ∈ keys) then remote_field vdb k else None.
Proof.
  intros Href Hiter. eexists _, _. split_and!.
  - apply (vdb_to_dict_nested _ _ _ _ Href Hiter).
  - rewrite observed_lookup by done. apply lookup_insert_eq.
  - apply nested_group_lookup.
Qed.

Lemma vdb_to_dict_nested_group_witness :
  ∃ out group,
    _vdb_to_dict ex_vdb
      (ex_props "docs" {["chunk_size" := AInt 1; "comment" := AStr "v1"]})
    = Ok out
    ∧ out !! "chunking_parameters" = Some (VDict group)
    ∧ ∀ k, group !! k
           = if bool_decide (k ∈ ["comment"; "chunk_size"])
             then remote_field ex_vdb k else None.
Proof.
  apply (vdb_to_dict_nested_group ex_vdb _
           (VDict {["chunk_size" := AInt 1; "comment" := AStr "v1"]}));
    vm_compute; reflexivity.
Defined.

(** The flat layout: without a nested group in the reference, the output
    has no nested group and has the five flat fields with the remote values;
    [custom_chunking] is there, as [True], exactly when the remote value is
    truthy, and [embedding_validation_id] exactly when the handle has the
    attribute and it is not [None]. *)
Theorem vdb_to_dict_flat_layout (vdb : VectorDatabase) (props : gmap string pyval) :
  props !! "chunking_parameters" = None →
  ∃ out,
    _vdb_to_dict vdb props = Ok out
    ∧ out !! "chunking_parameters" = None
    ∧ out !! "embedding_model" = Some (VAtom (vdb_embedding_model vdb))
    ∧ out !! "chunking_method" = Some (VAtom (vdb_chunking_method vdb))
    ∧ out !! "chunk_size" = Some (VAtom (vdb_chunk_size vdb))
    ∧ out !! "chunk_overlap_percentage"
      = Some (VAtom (vdb_chunk_overlap_percentage vdb))
    ∧ out !! "separators" = Some (VAtom (vdb_separators vdb))
    ∧ out !! "custom_chunking"
      = (if atom_truthy (vdb_custom_chunking vdb) then Some PTrue else None)
    ∧ out !! "embedding_validation_id"
      = match vdb_embedding_validation_id vdb with
        | Some v => if bool_decide (v = ANone) then None else Some (VAtom v)
        | None => None
        end.
Proof.
  intros Href. eexists. split; [by apply vdb_to_dict_flat|].
  rewrite !observed_lookup by done.
  split.
  { rewrite flat_dict_lookup_other by compute_done.
    apply core_dict_lookup_other. compute_done. }
  unfold flat_dict, core_dict.
  destruct (atom_truthy (vdb_custom_chunking vdb));
    destruct (vdb_embedding_validation_id vdb) as [v|];
    try case_bool_decide; split_and!; by simplify_map_eq.
Qed.

Lemma vdb_to_dict_flat_layout_witness :
  ∃ out,
    _vdb_to_dict ex_vdb_custom ex_flat_state = Ok out
    ∧ out !! "chunking_parameters" = None
    ∧ out !! "embedding_model" = Some (VAtom (vdb_embedding_model ex_vdb_custom))
    ∧ out !! "chunking_method" = Some (VAtom (vdb_chunking_method ex_vdb_custom))
    ∧ out !! "chunk_size" = Some (VAtom (vdb_chunk_size ex_vdb_custom))
    ∧ out !! "chunk_overlap_percentage"
      = Some (VAtom (vdb_chunk_overlap_percentage ex_vdb_custom))
    ∧ out !! "separators" = Some (VAtom (vdb_separators ex_vdb_custom))
    ∧ out !! "custom_chunking"
      = (if atom_truthy (vdb_custom_chunking ex_vdb_custom)
         then Some PTrue else None)
    ∧ out !! "embedding_validation_id"
      = match vdb_embedding_validation_id ex_vdb_custom with
        | Some v => if bool_decide (v = ANone) then None else Some (VAtom v)
        | None => None
        end.
Proof. apply vdb_to_dict_flat_layout. vm_compute. reflexivity. Defined.

(** The codec raises exactly when the reference holds, under
    [chunking_parameters], [None] or a number, which cannot be iterated; the
    exception is a [TypeError]. *)
Theorem vdb_to_dict_raises (vdb : VectorDatabase) (props : gmap string pyval)
    (e : exn) :
  _vdb_to_dict vdb props = Raise e
  ↔ e = TypeError
    ∧ ∃ a, props !! "chunking_parameters" = Some (VAtom a)
           ∧ (a = ANone ∨ is_number (VAtom a) = true).
Proof.
  destruct (props !! "chunking_parameters") as [reference|] eqn:Href.
  - destruct (py_iter reference) as [keys|e'] eqn:Hiter.
    + rewrite (vdb_to_dict_nested _ _ _ _ Href Hiter). split; [done|].
      intros (_ & a & [= ->] & [-> |Hnum]); [done|].
      by destruct a.
    + assert (_vdb_to_dict vdb props = Raise e') as ->.
      { unfold _vdb_to_dict.
        by rewrite (has_true _ _ _ Href), (get_Some _ _ _ Href), Hiter. }
      destruct reference as [[| | | |]|]; simpl in Hiter; try done;
        injection Hiter as <-;
        (split; [intros [= <-]; split; [done|]; eexists; split; [done|];
                   by (left + right)
                |by intros [-> _]]).
  - rewrite (vdb_to_dict_flat _ _ Href). split; [done|].
    by intros (_ & a & ? & _).
Qed.

Example vdb_to_dict_raises_on_none :
  _vdb_to_dict ex_vdb (<["chunking_parameters" := PNone]> ∅) = Raise TypeError.
Proof. vm_compute. reflexivity. Qed.

(** ** Reading back what was written *)

Lemma has_observed (vdb : VectorDatabase) (props result : gmap string pyval)
    (k : string) :
  k = "chunks_count" ∨ k = "execution_status" →
  result !! k = None →
  has (observed vdb props result) k = has props k.
Proof.
  intros Hk Hnone. unfold observed, has.
  destruct Hk as [-> | ->];
    destruct (bool_decide (is_Some (props !! "chunks_count"))) eqn:Hc,
             (bool_decide (is_Some (props !! "execution_status"))) eqn:Hs;
    simplify_map_eq; rewrite ?Hnone; try done;
    by (apply bool_decide_eq_true_2 || (symmetry; apply bool_decide_eq_false_2;
                                        by intros [? ?])).
Qed.

Lemma observed_observed (vdb : VectorDatabase) (props result result' : gmap string pyval) :
  result !! "chunks_count" = None →
  result !! "execution_status" = None →
  observed vdb (observed vdb props result) result' = observed vdb props result'.
Proof.
  intros Hc Hs. unfold observed at 1 3.
  by rewrite !has_observed by (done || by (left + right)).
Qed.

Lemma nested_group_stable (vdb : VectorDatabase) (keys : list string) :
  foldl (nested_step vdb) ∅ (map_to_list (foldl (nested_step vdb) ∅ keys)).*1
  = foldl (nested_step vdb) ∅ keys.
Proof.
  apply map_eq. intros k. rewrite !nested_group_lookup.
  pose proof (declared_keys_dict (foldl (nested_step vdb) ∅ keys) k) as Hdecl.
  unfold declared_keys in Hdecl. simpl in Hdecl.
  rewrite elem_of_dom, nested_group_lookup in Hdecl.
  destruct (bool_decide (k ∈ keys)) eqn:Hk; clear Hk.
  - case_bool_decide as Hin; [done|].
    destruct (remote_field vdb k) as [v|]; [|done].
    destruct Hin. apply Hdecl. by eexists.
  - case_bool_decide as Hin; [|done].
    apply Hdecl in Hin as [? [=]].
Qed.

Lemma vdb_to_dict_stable (vdb : VectorDatabase) (props out : gmap string pyval) :
  _vdb_to_dict vdb props = Ok out → _vdb_to_dict vdb out = Ok out.
Proof.
  intros [[Href ->]|(reference & keys & Href & Hiter & ->)]%vdb_to_dict_inv.
  - rewrite vdb_to_dict_flat.
    + by rewrite observed_observed
        by (by apply (layouts_not_observed vdb ∅); (left + right)).
    + rewrite observed_lookup by done.
      rewrite flat_dict_lookup_other by compute_done.
      apply core_dict_lookup_other. compute_done.
  - set (group := foldl (nested_step vdb) ∅ keys).
    rewrite (vdb_to_dict_nested vdb _ (VDict group) (map_to_list group).*1).
    + unfold group. rewrite nested_group_stable.
      rewrite observed_observed; [done| |];
        rewrite lookup_insert_ne by done; apply core_dict_lookup_other;
        compute_done.
    + rewrite observed_lookup by done. apply lookup_insert_eq.
    + done.
Qed.

(** The output of the codec is a fixed point of the codec: encoding the
    same handle with the output as the reference gives the output again.
    No key is gained or lost from one pass to the next. *)
Theorem vdb_to_dict_idempotent (vdb : VectorDatabase)
    (props out : gmap string pyval) :
  _vdb_to_dict vdb props = Ok out → _vdb_to_dict vdb out = Ok out.
Proof. apply vdb_to_dict_stable. Qed.

Lemma vdb_to_dict_idempotent_witness :
  _vdb_to_dict ex_vdb_custom (ex_nested_out ex_group) = Ok (ex_nested_out ex_group).
Proof.
  apply (vdb_to_dict_idempotent ex_vdb_custom
           (ex_props "docs" (<["custom_chunking" := ABool true]> ex_group))).
  vm_compute. reflexivity.
Defined.

(** [read] after [create]: when the platform still answers with the handle
    [create] ended with, reading with the outputs of [create] as the
    reference gives the same identifier and the same outputs. *)
Theorem read_after_create_stable (R : Remote) (id : atom) (vdb : VectorDatabase)
    (props : gmap string pyval) (result : CreateResult) (w : World) :
  created vdb props = Ok result →
  VectorDatabase_get R (gets w) id = Ok vdb →
  read R id (outs result) w
  = (Ok {| read_id_ := id_ result; read_outs := outs result |},
     {| now := now w; gets := S (gets w) |}).
Proof.
  unfold created, read, fetch.
  destruct (_vdb_to_dict vdb props) as [out|e] eqn:Hout; simpl; [|done].
  intros [= <-] ->. simpl. by rewrite (vdb_to_dict_stable _ _ _ Hout).
Qed.

Lemma read_after_create_stable_witness :
  read (constant_remote ex_vdb) (AStr "vdb-1") (ex_nested_out ex_group) w0
  = (Ok {| read_id_ := AStr "vdb-1"; read_outs := ex_nested_out ex_group |},
     {| now := 0; gets := 1 |}).
Proof.
  apply (read_after_create_stable (constant_remote ex_vdb) (AStr "vdb-1") ex_vdb
           (ex_props "docs" ex_group)
           {| id_ := AStr "vdb-1"; outs := ex_nested_out ex_group |} w0);
    vm_compute; reflexivity.
Defined.

(** ** The state written by the codec, diffed against its declaration *)

Lemma encoded_group_agrees (vdb : VectorDatabase) (group : gmap string atom)
    (key : string) :
  (∀ v, group !! key = Some v → default ANone (remote_field vdb key) = v) →
  aget (foldl (nested_step vdb) ∅ (map_to_list group).*1) key = aget group key.
Proof.
  intros Hfield. unfold aget. rewrite nested_group_lookup.
  pose proof (declared_keys_dict group key) as Hdecl.
  unfold declared_keys in Hdecl. simpl in Hdecl. rewrite elem_of_dom in Hdecl.
  case_bool_decide as Hin.
  - apply Hdecl in Hin as [v Hv]. rewrite Hv. simpl. by apply Hfield.
  - destruct (group !! key) as [v|] eqn:Hv; [|done].
    destruct Hin. apply Hdecl. by eexists.
Qed.

Lemma encode_then_diff (id : string) (vdb : VectorDatabase)
    (props out : gmap string pyval) (group : gmap string atom) :
  props !! "chunking_parameters" = Some (VDict group) →
  props !! "name" = Some (VAtom (vdb_name vdb)) →
  (∀ key v, key ∈ keys_to_compare → key ≠ "custom_chunking" →
     group !! key = Some v → default ANone (remote_field vdb key) = v) →
  aget group "custom_chunking" = ANone
  ∨ aget group "custom_chunking" = ABool false →
  separators_ok (VAtom (aget group "separators")) = true →
  _vdb_to_dict vdb props = Ok out →
  diff id out props = Ok no_change.
Proof.
  intros Hgroup Hname Hfields Hcustom Hsep Hout.
  destruct (vdb_to_dict_core_lookup _ _ _ Hout) as (_ & Hout_name & _).
  rewrite (vdb_to_dict_nested _ _ _ _ Hgroup eq_refl) in Hout.
  injection Hout as <-.
  set (written := foldl (nested_step vdb) ∅ (map_to_list group).*1) in *.
  assert (written !! "custom_chunking" = None) as Hwritten
    by (unfold written; by rewrite nested_loop_custom_chunking).
  assert (∀ new_cp : gmap string atom,
            aget new_cp "custom_chunking" = ANone →
            (∀ key, key ≠ "custom_chunking" → aget new_cp key = aget group key) →
            _chunking_params_diff (lift written) (lift new_cp) = Ok (false, []))
    as Hagree.
  { intros new_cp Hcc Hother. apply chunking_params_diff_agree. intros key Hkey.
    assert (get (lift written) key = get (lift new_cp) key) as ->.
    { rewrite !get_lift. f_equal.
      destruct (decide (key = "custom_chunking")) as [->|Hne].
      - unfold aget at 1. by rewrite Hwritten, Hcc.
      - rewrite Hother by done. apply encoded_group_agrees.
        intros v. by apply Hfields. }
    apply key_changed_same. intros ->. rewrite get_lift.
    by rewrite Hother. }
  apply diff_of_unflagged.
  rewrite (diff_compare_nested _ _ written (VDict group));
    [|by rewrite observed_lookup, lookup_insert_eq|done].
  assert (py_eq (get (observed vdb props
                        (<["chunking_parameters" := VDict written]> (core_dict vdb)))
                     "name")
                (get props "name") = true) as ->.
  { unfold get. rewrite Hout_name, Hname. apply py_eq_refl. }
  unfold compare_chunking. rewrite has_lift, (has_false _ _ Hwritten). simpl.
  destruct Hcustom as [Hcc|Hcc]; rewrite Hcc; simpl.
  - by rewrite Hagree.
  - rewrite Hagree; [done| |].
    + unfold aget. by rewrite lookup_delete_eq.
    + intros key Hne. unfold aget. by rewrite lookup_delete_ne.
Qed.

(** A nested declaration converges: when the remote fields hold the
    declared values, the remote name is the declared name and
    [custom_chunking] is not declared (or is declared [None] or [False]),
    the state the codec writes for a declaration gives no change when it is
    diffed against that declaration. *)
Theorem diff_after_encode_converges (id : string) (vdb : VectorDatabase)
    (props out : gmap string pyval) (group : gmap string atom) :
  props !! "chunking_parameters" = Some (VDict group) →
  props !! "name" = Some (VAtom (vdb_name vdb)) →
  (∀ key v, key ∈ keys_to_compare → key ≠ "custom_chunking" →
     group !! key = Some v → default ANone (remote_field vdb key) = v) →
  aget group "custom_chunking" = ANone
  ∨ aget group "custom_chunking" = ABool false →
  separators_ok (VAtom (aget group "separators")) = true →
  _vdb_to_dict vdb props = Ok out →
  diff id out props = Ok no_change.
Proof. apply encode_then_diff. Qed.

Lemma diff_after_encode_converges_witness :
  diff "vdb-1" (ex_nested_out ex_group)
       (ex_props "docs" (<["custom_chunking" := ABool false]> ex_group))
  = Ok no_change.
Proof.
  apply (diff_after_encode_converges "vdb-1" ex_vdb _ _
           (<["custom_chunking" := ABool false]> ex_group));
    try (vm_compute; reflexivity); [|by right].
  intros key v Hkey Hne. unfold keys_to_compare in Hkey.
  repeat (apply elem_of_cons in Hkey as [->|Hkey];
          [try done; vm_compute; by intros [= <-]|]).
  by apply elem_of_nil in Hkey.
Defined.

(** A declaration with [custom_chunking] set (to anything but [None] or
    [False]) never converges: the codec does not write the key, so the state
    it writes, diffed against the same declaration, always reports a change
    and asks for replacement. *)
Theorem diff_after_encode_custom_chunking (id : string) (vdb : VectorDatabase)
    (props out : gmap string pyval) (group : gmap string atom) (v : atom)
    (r : DiffResult) :
  props !! "chunking_parameters" = Some (VDict group) →
  group !! "custom_chunking" = Some v →
  v ≠ ANone → v ≠ ABool false →
  _vdb_to_dict vdb props = Ok out →
  diff id out props = Ok r →
  changes r = true
  ∧ ("chunking_parameters.custom_chunking" ∈ replaces r
     ∨ replaces r = whole_group).
Proof.
  intros Hgroup Hcustom Hnone Hfalse Hout.
  rewrite (vdb_to_dict_nested _ _ _ _ Hgroup eq_refl) in Hout.
  injection Hout as <-.
  set (written := foldl (nested_step vdb) ∅ (map_to_list group).*1) in *.
  assert (written !! "custom_chunking" = None) as Hwritten
    by (unfold written; by rewrite nested_loop_custom_chunking).
  unfold diff.
  rewrite (diff_compare_nested _ _ written (VDict group));
    [|by rewrite observed_lookup, lookup_insert_eq|done].
  unfold compare_chunking.
  assert (aget group "custom_chunking" = v) as Hget
    by (unfold aget; by rewrite Hcustom).
  rewrite Hget, (bool_decide_eq_false_2 (v = ABool false)), andb_false_r by done.
  destruct (_chunking_params_diff (lift written) (lift group)) as [[c fs]|e]
    eqn:Hdiff; simpl; [|done].
  assert ("custom_chunking" ∈ fs) as Hin.
  { rewrite (chunking_params_diff_fields _ _ _ _ Hdiff).
    apply list_elem_of_filter. split; [|compute_done].
    unfold key_flagged, key_changed. rewrite !get_lift, Hget.
    unfold aget. rewrite Hwritten. simpl.
    destruct v as [|[|]| | |]; try done; by vm_compute. }
  apply chunking_params_diff_inv in Hdiff as (_ & _ & ->).
  rewrite bool_decide_eq_false_2 by (intros ->; by apply elem_of_nil in Hin).
  simpl. intros [= <-]. simpl. split; [done|].
  rewrite add_replaces_spec. unfold collapse.
  case_bool_decide; [by right|left].
  apply elem_of_union_l, elem_of_list_to_set, list_elem_of_fmap.
  by exists "custom_chunking".
Qed.

Lemma diff_after_encode_custom_chunking_witness :
  changes {| changes := true;
             replaces := {["chunking_parameters.custom_chunking"]};
             delete_before_replace := false |} = true
  ∧ ("chunking_parameters.custom_chunking"
       ∈ replaces {| changes := true;
                     replaces := {["chunking_parameters.custom_chunking"]};
                     delete_before_replace := false |}
     ∨ replaces {| changes := true;
                   replaces := {["chunking_parameters.custom_chunking"]};
                   delete_before_replace := false |} = whole_group).
Proof.
  apply (diff_after_encode_custom_chunking "vdb-1" ex_vdb_custom
           (ex_props "docs" (<["custom_chunking" := ABool true]> ex_group))
           (ex_nested_out ex_group)
           (<["custom_chunking" := ABool true]> ex_group) (ABool true));
    try done; vm_compute; reflexivity.
Defined.

(** ** [create]: termination, cost and outcome *)

Section waiting.

Context (R : Remote) (timeout_seconds : atom) (start_time : Z).

(** More fuel does not change what the loop returns. *)
Lemma wait_loop_fuel_mono (fuel fuel' : nat) (vdb : VectorDatabase) (w : World)
    (r : outcome VectorDatabase * World) :
  wait_loop fuel R timeout_seconds start_time vdb w = Some r →
  (fuel ≤ fuel')%nat →
  wait_loop fuel' R timeout_seconds start_time vdb w = Some r.
Proof.
  revert fuel' vdb w.
  induction fuel as [|fuel IH]; intros fuel' vdb w Hloop Hle.
  - simpl in Hloop.
    destruct (is_terminal (vdb_execution_status vdb)) eqn:Hterm; [|done].
    by rewrite wait_loop_done.
  - destruct fuel' as [|fuel']; [lia|].
    simpl in *. destruct (is_terminal (vdb_execution_status vdb)); [done|].
    destruct (as_number timeout_seconds) as [[limit text]|e]; [|done].
    case_bool_decide; [done|].
    unfold fetch, sleep in *. simpl in *.
    destruct (VectorDatabase_get R (gets w) (vdb_id vdb)) as [vdb'|e]; [|done].
    destruct (atom_eq (vdb_execution_status vdb') (AStr "FAILED")); [done|].
    apply IH; [done|lia].
Qed.

(** Each round costs five seconds and one fetch, and there are no more
    rounds than checks that find the elapsed time within the limit. *)
Lemma wait_loop_cost (limit : Z) (text : string) (fuel : nat)
    (vdb : VectorDatabase) (w w' : World) (r : outcome VectorDatabase) :
  as_number timeout_seconds = Ok (limit, text) →
  wait_loop fuel R timeout_seconds start_time vdb w = Some (r, w') →
  ∃ n, w' = advance n w ∧ (n ≤ rounds limit (now w - start_time))%nat.
Proof.
  intros Hnum. revert vdb w.
  assert (∀ w, w = advance 0 w) as Hzero.
  { intros [t k]. unfold advance. simpl. f_equal; lia. }
  induction fuel as [|fuel IH]; intros vdb w; simpl.
  - destruct (is_terminal (vdb_execution_status vdb)); [|done].
    intros [= _ <-]. exists 0. split; [apply Hzero|lia].
  - destruct (is_terminal (vdb_execution_status vdb)).
    { intros [= _ <-]. exists 0. split; [apply Hzero|lia]. }
    rewrite Hnum. case_bool_decide as Hlt.
    { intros [= _ <-]. exists 0. split; [apply Hzero|lia]. }
    rewrite (rounds_step limit (now w - start_time)) by lia.
    unfold fetch, sleep. simpl.
    assert ({| now := now w + 5; gets := S (gets w) |} = advance 1 w) as Hone.
    { unfold advance. f_equal; lia. }
    destruct (VectorDatabase_get R (gets w) (vdb_id vdb)) as [vdb'|e].
    + destruct (atom_eq (vdb_execution_status vdb') (AStr "FAILED")).
      * intros [= _ <-]. exists 1. split; [done|lia].
      * intros (n & -> & Hn)%IH. exists (S n). split.
        -- unfold advance. simpl. f_equal; lia.
        -- simpl in Hn.
           replace (now w + 5 - start_time)%Z
             with (now w - start_time + 5)%Z in Hn by lia.
           lia.
    + intros [= _ <-]. exists 1. split; [done|lia].
Qed.


End waiting.

(** [create] returns, whatever the platform does: there is an amount of
    fuel from which on the result is the same, and it is a result or an
    exception. *)
Theorem create_returns (R : Remote) (props : gmap string pyval) (w : World) :
  ∃ n r, ∀ fuel, (n ≤ fuel)%nat → create fuel R props w = Some r.
Proof.
  unfold create.
  destruct (create_options props) as [[wait timeout]|e]; [|by exists 0; eauto].
  destruct (create_args props ≫= VectorDatabase_create R) as [vdb0|e];
    [|by exists 0; eauto].
  destruct (atom_truthy wait); [|by exists 0; eauto].
  destruct (wait_loop_total R timeout (now w)
              (enough_fuel timeout (now w - now w)) vdb0 w) as [[r w'] Hloop];
    [done|].
  exists (enough_fuel timeout (now w - now w)). eexists. intros fuel Hfuel.
  by rewrite (wait_loop_fuel_mono _ _ _ _ _ _ _ _ Hloop Hfuel).
Qed.

(** While it waits, [create] fetches at most [timeout_seconds / 5 + 1]
    times and sleeps five seconds before each fetch, whatever the platform
    answers and however [create] ends. *)
Theorem create_cost (fuel : nat) (R : Remote) (props : gmap string pyval)
    (w w' : World) (r : outcome CreateResult)
    (wait_for_completion timeout_seconds : atom) (limit : Z) (text : string) :
  create_options props = Ok (wait_for_completion, timeout_seconds) →
  as_number timeout_seconds = Ok (limit, text) →
  create fuel R props w = Some (r, w') →
  ∃ n, w' = advance n w ∧ (n ≤ S (Z.to_nat (limit / 5)))%nat.
Proof.
  intros Hoptions Hnum. unfold create. rewrite Hoptions.
  assert (w = advance 0 w) as Hzero.
  { destruct w as [t k]. unfold advance. simpl. f_equal; lia. }
  destruct (create_args props ≫= VectorDatabase_create R) as [vdb0|e].
  2: { intros [= _ <-]. exists 0. split; [done|lia]. }
  destruct (atom_truthy wait_for_completion).
  2: { simpl. intros [= _ <-]. exists 0. split; [done|lia]. }
  destruct (wait_loop fuel R timeout_seconds (now w) vdb0 w) as [[r0 w0']|]
    eqn:Hloop; simpl; [|done].
  intros [= _ <-].
  destruct (wait_loop_cost _ _ _ _ _ _ _ _ _ _ Hnum Hloop) as (n & -> & Hn).
  exists n. split; [done|].
  replace (now w - now w)%Z with 0%Z in Hn by lia.
  unfold rounds in Hn. rewrite Z.sub_0_r in Hn. case_decide; lia.
Qed.

Lemma create_cost_witness :
  ∃ n, {| now := 5; gets := 1 |} = advance n w0
       ∧ (n ≤ S (Z.to_nat (600 / 5)))%nat.
Proof.
  apply (create_cost 1
           {| VectorDatabase_create := λ _, Ok (with_status "QUEUED" None ex_vdb);
              VectorDatabase_get := λ _ _, Raise (RemoteError "gateway timeout") |}
           (ex_props "docs" ex_group) w0 {| now := 5; gets := 1 |}
           (Raise (RemoteError "gateway timeout"))
           (ABool true) (AInt 600) 600 "600");
    vm_compute; reflexivity.
Defined.





(** ** [update] *)

(** When the new name is falsy ([None], empty) or equal to the remote name,
    [update] makes no call that changes the platform: it fetches the handle
    and returns what [read] returns for the new declaration. *)
Theorem update_without_rename (R : Remote) (M : Mutations) (id : atom)
    (old_props new_props : gmap string pyval) (w : World) (vdb : VectorDatabase) :
  VectorDatabase_get R (gets w) id = Ok vdb →
  py_truthy (get new_props "name") = false
  ∨ py_eq (get new_props "name") (VAtom (vdb_name vdb)) = true →
  update R M id old_props new_props w
  = (r ← (read R id new_props w).1; Ok {| update_outs := read_outs r |},
     (read R id new_props w).2).
Proof.
  intros Hget Hname. unfold update, read, fetch. rewrite Hget. simpl.
  assert (py_truthy (get new_props "name")
          && negb (py_eq (get new_props "name") (VAtom (vdb_name vdb))) = false)
    as ->.
  { destruct Hname as [-> | ->]; [done|apply andb_false_r]. }
  simpl. by destruct (_vdb_to_dict vdb new_props).
Qed.

Lemma update_without_rename_witness :
  update (constant_remote ex_vdb) obliging (AStr "vdb-1")
         (ex_props "docs" ex_group) (ex_props "docs" ex_group_resized) w0
  = (r ← (read (constant_remote ex_vdb) (AStr "vdb-1")
               (ex_props "docs" ex_group_resized) w0).1;
     Ok {| update_outs := read_outs r |},
     (read (constant_remote ex_vdb) (AStr "vdb-1")
           (ex_props "docs" ex_group_resized) w0).2).
Proof.
  apply (update_without_rename _ _ _ _ _ _ ex_vdb); [reflexivity|].
  right. vm_compute. reflexivity.
Defined.

(** A change of name is settled by [update]: when the platform renames the
    resource as asked and its fields hold the declared values, the outputs
    of [update], diffed against the new declaration, give no change. *)
Theorem update_settles_name_change (R : Remote) (M : Mutations) (id : atom)
    (diff_id : string) (old_props new_props : gmap string pyval) (w w' : World)
    (vdb vdb' : VectorDatabase) (group : gmap string atom)
    (result : UpdateResult) :
  VectorDatabase_get R (gets w) id = Ok vdb →
  py_truthy (get new_props "name") = true →
  py_eq (get new_props "name") (VAtom (vdb_name vdb)) = false →
  VectorDatabase_update M vdb (get new_props "name") = Ok vdb' →
  new_props !! "name" = Some (VAtom (vdb_name vdb')) →
  new_props !! "chunking_parameters" = Some (VDict group) →
  (∀ key v, key ∈ keys_to_compare → key ≠ "custom_chunking" →
     group !! key = Some v → default ANone (remote_field vdb' key) = v) →
  aget group "custom_chunking" = ANone
  ∨ aget group "custom_chunking" = ABool false →
  separators_ok (VAtom (aget group "separators")) = true →
  update R M id old_props new_props w = (Ok result, w') →
  diff diff_id (update_outs result) new_props = Ok no_change.
Proof.
  intros Hget Htruthy Hne Hrename Hname Hgroup Hfields Hcustom Hsep.
  unfold update, fetch. rewrite Hget. simpl.
  rewrite Htruthy, Hne. simpl. rewrite Hrename. simpl.
  destruct (_vdb_to_dict vdb' new_props) as [out|e] eqn:Hout; simpl; [|done].
  intros [= <- _]. simpl.
  by apply (encode_then_diff diff_id vdb' new_props out group).
Qed.

Lemma update_settles_name_change_witness :
  diff "vdb-1"
       (<["name" := VAtom (AStr "docs-v2")]> (ex_nested_out ex_group))
       (ex_props "docs-v2" ex_group)
  = Ok no_change.
Proof.
  refine (update_settles_name_change (constant_remote ex_vdb) obliging
           (AStr "vdb-1") "vdb-1" (ex_props "docs" ex_group)
           (ex_props "docs-v2" ex_group) w0 {| now := 0; gets := 1 |}
           ex_vdb
           {| vdb_id := AStr "vdb-1"; vdb_name := AStr "docs-v2";
              vdb_use_case_id := AStr "uc-1"; vdb_dataset_id := AStr "ds-1";
              vdb_chunks_count := AInt 42;
              vdb_execution_status := AStr "COMPLETED";
              vdb_embedding_model := AStr "jinaai/jina-embedding-t-en-v1";
              vdb_chunking_method := AStr "recursive";
              vdb_chunk_size := AInt 256;
              vdb_chunk_overlap_percentage := AInt 10;
              vdb_separators := AList ["."; " "; ","];
              vdb_custom_chunking := ABool false;
              vdb_embedding_validation_id := None;
              vdb_error_message := None |}
           ex_group
           {| update_outs :=
                <["name" := VAtom (AStr "docs-v2")]> (ex_nested_out ex_group) |}
           _ _ _ _ _ _ _ _ _ _);
    try (vm_compute; reflexivity); [|by left].
  intros key v Hkey Hne. unfold keys_to_compare in Hkey.
  repeat (apply elem_of_cons in Hkey as [->|Hkey];
          [try done; vm_compute; by intros [= <-]|]).
  by apply elem_of_nil in Hkey.
Defined.

(** ** The helpers and the resource *)

Lemma args_lookup (a : HelperArgs) (key : string) (v : atom) :
  ChunkingParametersArgs a !! key = Some v →
  (key = "embedding_model" ∧ v = h_embedding_model a)
  ∨ (key = "chunking_method" ∧ v = h_chunking_method a)
  ∨ (key = "chunk_size" ∧ v = h_chunk_size a)
  ∨ (key = "chunk_overlap_percentage" ∧ v = h_chunk_overlap_percentage a)
  ∨ (key = "separators" ∧ v = h_separators a)
  ∨ (key = "custom_chunking" ∧ v = h_custom_chunking a ∧ atom_truthy v = true)
  ∨ (key = "embedding_validation_id" ∧ v = h_embedding_validation_id a
     ∧ atom_truthy v = true).
Proof.
  unfold ChunkingParametersArgs, with_optional, five_params.
  destruct (atom_truthy (h_custom_chunking a)) eqn:Hcc,
           (atom_truthy (h_embedding_validation_id a)) eqn:Hev;
    intros H;
    repeat (rewrite lookup_insert in H;
            destruct (decide _) as [<-|?]; [injection H as <-; naive_solver|]);
    by rewrite lookup_empty in H.
Qed.

Lemma args_aget (a : HelperArgs) :
  aget (ChunkingParametersArgs a) "embedding_model" = h_embedding_model a
  ∧ aget (ChunkingParametersArgs a) "chunking_method" = h_chunking_method a
  ∧ aget (ChunkingParametersArgs a) "chunk_size" = h_chunk_size a
  ∧ aget (ChunkingParametersArgs a) "chunk_overlap_percentage"
    = h_chunk_overlap_percentage a
  ∧ aget (ChunkingParametersArgs a) "separators" = h_separators a
  ∧ ChunkingParametersArgs a !! "custom_chunking"
    = (if atom_truthy (h_custom_chunking a)
       then Some (h_custom_chunking a) else None)
  ∧ ChunkingParametersArgs a !! "embedding_validation_id"
    = (if atom_truthy (h_embedding_validation_id a)
       then Some (h_embedding_validation_id a) else None).
Proof.
  unfold aget, ChunkingParametersArgs, with_optional, five_params.
  destruct (atom_truthy (h_custom_chunking a)),
           (atom_truthy (h_embedding_validation_id a));
    split_and!; by simplify_map_eq.
Qed.

Lemma args_not_private (a : HelperArgs) :
  as_chunking_dict (FromObject (ChunkingParametersArgs a))
  = ChunkingParametersArgs a.
Proof.
  simpl. apply map_filter_id. intros key v Hkey. simpl.
  apply args_lookup in Hkey.
  destruct Hkey as [[-> _]|[[-> _]|[[-> _]|[[-> _]|[[-> _]|[[-> _]|[-> _]]]]]]];
    done.
Qed.

Lemma drop_falsy_custom_chunking_id (d : gmap string atom) :
  (∀ v, d !! "custom_chunking" = Some v → atom_truthy v = true) →
  drop_falsy_custom_chunking d = d.
Proof.
  intros Htruthy. unfold drop_falsy_custom_chunking.
  destruct (d !! "custom_chunking") as [v|] eqn:Hv; [|done].
  by rewrite (Htruthy v).
Qed.

Lemma args_custom_chunking (a : HelperArgs) (v : atom) :
  ChunkingParametersArgs a !! "custom_chunking" = Some v → atom_truthy v = true.
Proof.
  intros Hv. apply args_lookup in Hv.
  destruct Hv as [[? _]|[[? _]|[[? _]|[[? _]|[[? _]|[(_ & _ & ?)|[? _]]]]]]];
    done.
Qed.

Lemma params_lookup (a : HelperArgs) (key : string) (v : atom) :
  create_chunking_parameters a !! key = Some v
  ↔ ChunkingParametersArgs a !! key = Some v ∧ v ≠ ANone.
Proof. unfold create_chunking_parameters. apply map_lookup_filter_Some. Qed.

Lemma params_aget (a : HelperArgs) (key : string) :
  aget (create_chunking_parameters a) key = aget (ChunkingParametersArgs a) key.
Proof.
  unfold aget.
  destruct (create_chunking_parameters a !! key) as [v|] eqn:Hv.
  - apply params_lookup in Hv as [-> _]. done.
  - destruct (ChunkingParametersArgs a !! key) as [v|] eqn:Hobj; [|done].
    destruct (decide (v = ANone)) as [->|Hne]; [done|].
    assert (create_chunking_parameters a !! key = Some v) as Hlookup
      by (by apply params_lookup).
    congruence.
Qed.

(** The dictionary [create_chunking_parameters] builds has no [None] value
    and no key but the seven chunking keys; [custom_chunking] and
    [embedding_validation_id] are in it only with a truthy value. *)
Theorem create_chunking_parameters_clean (a : HelperArgs) (key : string) (v : atom) :
  create_chunking_parameters a !! key = Some v →
  v ≠ ANone
  ∧ key ∈ keys_to_compare
  ∧ (key = "custom_chunking" ∨ key = "embedding_validation_id" →
     atom_truthy v = true).
Proof.
  intros [Hobj Hne]%params_lookup. split; [done|].
  apply args_lookup in Hobj.
  destruct Hobj
    as [[-> _]|[[-> _]|[[-> _]|[[-> _]|[[-> _]|[(-> & _ & ?)|(-> & _ & ?)]]]]]];
    (split; [compute_done|]); try done; by intros [?|?].
Qed.

Lemma create_chunking_parameters_clean_witness :
  AInt 256 ≠ ANone
  ∧ "chunk_size" ∈ keys_to_compare
  ∧ ("chunk_size" = "custom_chunking" ∨ "chunk_size" = "embedding_validation_id" →
     atom_truthy (AInt 256) = true).
Proof.
  apply (create_chunking_parameters_clean ex_args). vm_compute. reflexivity.
Defined.

(** The group the resource hands to the provider never holds a falsy
    [custom_chunking]; every other key is as given. *)
Theorem resource_props_custom_chunking (resource_name : string)
    (dataset_id name use_case_id wait_for_completion timeout_seconds : pyval)
    (given : chunking_input) :
  ∃ group,
    DataRobotVectorDatabase_props resource_name dataset_id name use_case_id
      wait_for_completion timeout_seconds (Some given)
      !! "chunking_parameters" = Some (VDict group)
    ∧ (∀ v, group !! "custom_chunking" = Some v → atom_truthy v = true)
    ∧ (∀ key, key ≠ "custom_chunking" →
         group !! key = as_chunking_dict given !! key).
Proof.
  eexists. split; [apply lookup_insert_eq|].
  unfold drop_falsy_custom_chunking.
  destruct (as_chunking_dict given !! "custom_chunking") as [v|] eqn:Hv.
  - destruct (atom_truthy v) eqn:Htruthy.
    + split; [|done]. intros v'. rewrite Hv. by intros [= <-].
    + split; [by rewrite lookup_delete_eq|].
      intros key Hne. by rewrite lookup_delete_ne.
  - split; [|done]. by rewrite Hv.
Qed.

(** The constructor's [wait_for_completion] and [timeout_seconds] do not
    reach the provider: the property bag has no [options], so [create] waits,
    with a timeout of 600 seconds, whatever was passed. *)
Theorem resource_options_ignored (resource_name : string)
    (dataset_id name use_case_id wait_for_completion timeout_seconds : pyval)
    (chunking_parameters : option chunking_input) :
  create_options
    (DataRobotVectorDatabase_props resource_name dataset_id name use_case_id
       wait_for_completion timeout_seconds chunking_parameters)
  = Ok (ABool true, AInt 600).
Proof.
  unfold create_options, DataRobotVectorDatabase_props.
  destruct chunking_parameters as [given|]; by rewrite !lookup_insert_ne.
Qed.

Example resource_options_ignored_example :
  create_options
    (DataRobotVectorDatabase_props "docs" (VAtom (AStr "ds-1")) PNone
       (VAtom (AStr "uc-1")) PFalse (VAtom (AInt 30)) None)
  = Ok (ABool true, AInt 600).
Proof. vm_compute. reflexivity. Qed.

Lemma compare_chunking_equal_values (old_cp new_cp : gmap string atom) :
  (∀ key, aget old_cp key = aget new_cp key) →
  aget new_cp "custom_chunking" ≠ ABool false →
  separators_ok (VAtom (aget new_cp "separators")) = true →
  compare_chunking (lift old_cp) (VDict new_cp) = Ok (false, []).
Proof.
  intros Hsame Hcustom Hsep. unfold compare_chunking.
  rewrite (bool_decide_eq_false_2 (aget new_cp "custom_chunking" = ABool false)),
          andb_false_r by done.
  apply chunking_params_diff_agree. intros key _.
  rewrite !get_lift, Hsame. apply key_changed_same. by intros ->.
Qed.

Lemma args_custom_chunking_not_false (a : HelperArgs) :
  aget (ChunkingParametersArgs a) "custom_chunking" ≠ ABool false.
Proof.
  unfold aget. destruct (args_aget a) as (_ & _ & _ & _ & _ & -> & _).
  destruct (atom_truthy (h_custom_chunking a)) eqn:Htruthy; simpl; [|done].
  intros Hfalse. by rewrite Hfalse in Htruthy.
Qed.

Lemma resource_group_of_object (resource_name : string)
    (dataset_id name use_case_id wait_for_completion timeout_seconds : pyval)
    (a : HelperArgs) :
  DataRobotVectorDatabase_props resource_name dataset_id name use_case_id
    wait_for_completion timeout_seconds
    (Some (FromObject (ChunkingParametersArgs a)))
    !! "chunking_parameters"
  = Some (VDict (ChunkingParametersArgs a)).
Proof.
  unfold DataRobotVectorDatabase_props.
  rewrite lookup_insert_eq, args_not_private.
  rewrite drop_falsy_custom_chunking_id; [done|]. apply args_custom_chunking.
Qed.

Lemma resource_group_of_dict (resource_name : string)
    (dataset_id name use_case_id wait_for_completion timeout_seconds : pyval)
    (a : HelperArgs) :
  DataRobotVectorDatabase_props resource_name dataset_id name use_case_id
    wait_for_completion timeout_seconds
    (Some (FromDict (create_chunking_parameters a)))
    !! "chunking_parameters"
  = Some (VDict (create_chunking_parameters a)).
Proof.
  unfold DataRobotVectorDatabase_props. rewrite lookup_insert_eq. simpl.
  rewrite drop_falsy_custom_chunking_id; [done|].
  intros v [Hv _]%params_lookup. by apply (args_custom_chunking a).
Qed.

Lemma resource_name_lookup (resource_name : string)
    (dataset_id name use_case_id wait_for_completion timeout_seconds : pyval)
    (chunking_parameters : option chunking_input) :
  get (DataRobotVectorDatabase_props resource_name dataset_id name use_case_id
         wait_for_completion timeout_seconds chunking_parameters) "name"
  = (if is_None name then VAtom (AStr ("pulumi-vdb-" +:+ resource_name)) else name)
  ∧ get (DataRobotVectorDatabase_props resource_name dataset_id name use_case_id
           wait_for_completion timeout_seconds chunking_parameters) "dataset_id"
    = dataset_id
  ∧ get (DataRobotVectorDatabase_props resource_name dataset_id name use_case_id
           wait_for_completion timeout_seconds chunking_parameters) "use_case_id"
    = use_case_id.
Proof.
  unfold get, DataRobotVectorDatabase_props.
  destruct chunking_parameters as [given|]; split_and!; by simplify_map_eq.
Qed.

(** The two helpers are interchangeable: a resource declared with a
    [ChunkingParametersArgs] object and one declared with the dictionary of
    [create_chunking_parameters], from the same arguments, give no change
    when diffed against each other, in either order. *)
Theorem helper_object_and_dict_equivalent (id resource_name : string)
    (dataset_id name use_case_id wait_for_completion timeout_seconds : pyval)
    (a : HelperArgs) :
  separators_ok (VAtom (h_separators a)) = true →
  diff id
    (DataRobotVectorDatabase_props resource_name dataset_id name use_case_id
       wait_for_completion timeout_seconds
       (Some (FromObject (ChunkingParametersArgs a))))
    (DataRobotVectorDatabase_props resource_name dataset_id name use_case_id
       wait_for_completion timeout_seconds
       (Some (FromDict (create_chunking_parameters a))))
  = Ok no_change
  ∧ diff id
      (DataRobotVectorDatabase_props resource_name dataset_id name use_case_id
         wait_for_completion timeout_seconds
         (Some (FromDict (create_chunking_parameters a))))
      (DataRobotVectorDatabase_props resource_name dataset_id name use_case_id
         wait_for_completion timeout_seconds
         (Some (FromObject (ChunkingParametersArgs a))))
    = Ok no_change.
Proof.
  intros Hsep.
  pose proof (resource_group_of_object resource_name dataset_id name use_case_id
                wait_for_completion timeout_seconds a) as Hobject.
  pose proof (resource_group_of_dict resource_name dataset_id name use_case_id
                wait_for_completion timeout_seconds a) as Hdict.
  destruct (resource_name_lookup resource_name dataset_id name use_case_id
              wait_for_completion timeout_seconds
              (Some (FromObject (ChunkingParametersArgs a)))) as [Hname_object _].
  destruct (resource_name_lookup resource_name dataset_id name use_case_id
              wait_for_completion timeout_seconds
              (Some (FromDict (create_chunking_parameters a)))) as [Hname_dict _].
  set (props_object :=
         DataRobotVectorDatabase_props resource_name dataset_id name use_case_id
           wait_for_completion timeout_seconds
           (Some (FromObject (ChunkingParametersArgs a)))) in *.
  set (props_dict :=
         DataRobotVectorDatabase_props resource_name dataset_id name use_case_id
           wait_for_completion timeout_seconds
           (Some (FromDict (create_chunking_parameters a)))) in *.
  clearbody props_object props_dict.
  destruct (args_aget a) as (_ & _ & _ & _ & Hseparators & _).
  split; apply diff_of_unflagged.
  - rewrite (diff_compare_nested _ _ _ _ Hobject Hdict).
    rewrite compare_chunking_equal_values.
    + simpl. by rewrite Hname_object, Hname_dict, py_eq_refl.
    + intros key. by rewrite params_aget.
    + rewrite params_aget. apply args_custom_chunking_not_false.
    + by rewrite params_aget, Hseparators.
  - rewrite (diff_compare_nested _ _ _ _ Hdict Hobject).
    rewrite compare_chunking_equal_values.
    + simpl. by rewrite Hname_object, Hname_dict, py_eq_refl.
    + intros key. by rewrite params_aget.
    + apply args_custom_chunking_not_false.
    + by rewrite Hseparators.
Qed.

Lemma helper_object_and_dict_equivalent_witness :
  diff "vdb-1"
    (DataRobotVectorDatabase_props "docs" (VAtom (AStr "ds-1")) PNone
       (VAtom (AStr "uc-1")) PTrue (VAtom (AInt 600))
       (Some (FromObject (ChunkingParametersArgs ex_args))))
    (DataRobotVectorDatabase_props "docs" (VAtom (AStr "ds-1")) PNone
       (VAtom (AStr "uc-1")) PTrue (VAtom (AInt 600))
       (Some (FromDict (create_chunking_parameters ex_args))))
  = Ok no_change
  ∧ diff "vdb-1"
      (DataRobotVectorDatabase_props "docs" (VAtom (AStr "ds-1")) PNone
         (VAtom (AStr "uc-1")) PTrue (VAtom (AInt 600))
         (Some (FromDict (create_chunking_parameters ex_args))))
      (DataRobotVectorDatabase_props "docs" (VAtom (AStr "ds-1")) PNone
         (VAtom (AStr "uc-1")) PTrue (VAtom (AInt 600))
         (Some (FromObject (ChunkingParametersArgs ex_args))))
    = Ok no_change.
Proof. apply helper_object_and_dict_equivalent. vm_compute. reflexivity. Defined.

(** From the helper to the platform: the arguments of the creation call for
    a resource declared with [create_chunking_parameters] carry the helper's
    arguments unchanged ([custom_chunking] as [False] when it was falsy, no
    [embedding_validation_id] when it was falsy), and carry no chunking
    object at all when every argument was left out. *)
Theorem create_args_of_helper (resource_name : string)
    (dataset_id name use_case_id wait_for_completion timeout_seconds : pyval)
    (a : HelperArgs) :
  create_args
    (DataRobotVectorDatabase_props resource_name dataset_id name use_case_id
       wait_for_completion timeout_seconds
       (Some (FromDict (create_chunking_parameters a))))
  = Ok {| arg_dataset_id := dataset_id;
          arg_chunking_parameters :=
            if bool_decide (create_chunking_parameters a = ∅) then None
            else Some
              {| cp_embedding_model := h_embedding_model a;
                 cp_chunking_method := h_chunking_method a;
                 cp_chunk_size := h_chunk_size a;
                 cp_chunk_overlap_percentage := h_chunk_overlap_percentage a;
                 cp_separators := h_separators a;
                 cp_custom_chunking :=
                   if atom_truthy (h_custom_chunking a)
                   then h_custom_chunking a else ABool false;
                 cp_embedding_validation_id :=
                   if atom_truthy (h_embedding_validation_id a)
                   then Some (h_embedding_validation_id a) else None |};
          arg_use_case := use_case_id;
          arg_name :=
            if is_None name
            then VAtom (AStr ("pulumi-vdb-" +:+ resource_name))
            else name |}.
Proof.
  unfold create_args.
  destruct (resource_name_lookup resource_name dataset_id name use_case_id
              wait_for_completion timeout_seconds
              (Some (FromDict (create_chunking_parameters a))))
    as (-> & -> & ->).
  rewrite resource_group_of_dict. simpl. unfold build_chunking_params. simpl.
  case_bool_decide as Hempty; simpl; [done|].
  destruct (args_aget a) as (Hmodel & Hmethod & Hsize & Hoverlap & Hsep & Hcc & Hev).
  rewrite !params_aget, Hmodel, Hmethod, Hsize, Hoverlap, Hsep.
  assert (aget_default (create_chunking_parameters a) "custom_chunking"
                       (ABool false)
          = if atom_truthy (h_custom_chunking a)
            then h_custom_chunking a else ABool false) as ->.
  { unfold aget_default.
    destruct (create_chunking_parameters a !! "custom_chunking") as [v|] eqn:Hv.
    - apply params_lookup in Hv as [Hv _]. rewrite Hcc in Hv.
      destruct (atom_truthy (h_custom_chunking a)); by simplify_eq.
    - destruct (atom_truthy (h_custom_chunking a)) eqn:Htruthy; [|done].
      assert (create_chunking_parameters a !! "custom_chunking"
              = Some (h_custom_chunking a)) as Hin.
      { apply params_lookup. split; [done|]. intros Hnone.
        by rewrite Hnone in Htruthy. }
      congruence. }
  assert (aget (ChunkingParametersArgs a) "embedding_validation_id"
          = if atom_truthy (h_embedding_validation_id a)
            then h_embedding_validation_id a else ANone) as ->.
  { unfold aget. rewrite Hev.
    by destruct (atom_truthy (h_embedding_validation_id a)). }
  by destruct (atom_truthy (h_embedding_validation_id a)) eqn:Htruthy;
    simpl; rewrite ?Htruthy.
Qed.

Example create_args_of_helper_empty :
  create_args
    (DataRobotVectorDatabase_props "docs" (VAtom (AStr "ds-1")) PNone
       (VAtom (AStr "uc-1")) PTrue (VAtom (AInt 600))
       (Some (FromDict (create_chunking_parameters
                          {| h_embedding_model := ANone;
                             h_chunking_method := ANone;
                             h_chunk_size := ANone;
                             h_chunk_overlap_percentage := ANone;
                             h_separators := ANone;
                             h_custom_chunking := ABool false;
                             h_embedding_validation_id := ANone |}))))
  = Ok {| arg_dataset_id := VAtom (AStr "ds-1");
          arg_chunking_parameters := None;
          arg_use_case := VAtom (AStr "uc-1");
          arg_name := VAtom (AStr "pulumi-vdb-docs") |}.
Proof. vm_compute. reflexivity. Qed.
